(** * Housing-price analytics: data pipeline, price predictor and query API

    A shallow embedding of
      - [src/data/dagster_assets.py]   (module [Assets]),
      - [src/models/price_predictor.py] (module [Predictor]),
      - [src/api/main.py]               (module [Api]),
    followed by the properties of the specification that were checked
    against it.

    Conventions of the embedding.
      - Python exceptions are values of [exn]; a computation that may raise
        returns a [result].
      - Floating-point numbers are the type [float]: exact rationals
        extended with the two infinities and NaN.  Rounding error and signed
        zeros are not modelled.
      - A pandas DataFrame is a [frame]: its column labels and its rows, each
        row a finite map from column label to [cell]; a label of the frame
        that a row does not bind reads as NaN, as pandas fills it.
      - Calls to [logger] are left out; the clock is a parameter ([today],
        [now_year]).
      - The report an asset makes on its result before returning it
        ([context.add_output_metadata] with values built by
        [MetadataValue.int] and [MetadataValue.text]) is part of the asset:
        it sits inside the asset's [try].  The three calls belong to the
        orchestration library; they are parameters that may return or raise
        (class [Assets.Reporting]).
      - Files, the network and the database are outside the embedding: the
        assets that read or write them appear through their exception
        handlers, the HTTP call and the database as function parameters. *)

From Stdlib Require Import QArith Qcanon Qround ZArith Lqa.
From stdpp Require Import base numbers list strings gmap fin_maps sorting pretty.

(** ** Exceptions and results *)

Inductive exn :=
| KeyError (label : string)
| TypeError
| ValueError (msg : string)
| OverflowError
| ZeroDivisionError
| IndexError
| InvalidIndexError
| NotFittedError
| CheckError.

Inductive result (A : Type) :=
| Ok (a : A)
| Err (e : exn).
Arguments Ok {A} a.
Arguments Err {A} e.

#[global] Instance result_ret : MRet result := fun A a => Ok a.
#[global] Instance result_bind : MBind result := fun A B f m =>
  match m with
  | Ok a => f a
  | Err e => Err e
  end.
#[global] Instance result_fmap : FMap result := fun A B f m =>
  match m with
  | Ok a => Ok (f a)
  | Err e => Err e
  end.

(** [traverse f l] runs [f] on every element, left to right, and stops at the
    first exception. *)
Fixpoint traverse {A B} (f : A -> result B) (l : list A) : result (list B) :=
  match l with
  | [] => Ok []
  | x :: l' =>
      match f x with
      | Ok y =>
          match traverse f l' with
          | Ok ys => Ok (y :: ys)
          | Err e => Err e
          end
      | Err e => Err e
      end
  end.

Definition is_ok {A} (r : result A) : bool :=
  match r with Ok _ => true | Err _ => false end.

(** ** Floating-point values *)

Inductive float :=
| Finite (q : Qc)
| PosInf
| NegInf
| NaN.

#[global] Instance float_eq_dec : EqDecision float.
Proof. solve_decision. Defined.

Definition qc_pos (q : Qc) : bool := bool_decide (0 < q)%Qc.
Definition qc_neg (q : Qc) : bool := bool_decide (q < 0)%Qc.

Definition inf_of_sign (negative : bool) : float :=
  if negative then NegInf else PosInf.

Definition fopp (a : float) : float :=
  match a with
  | Finite q => Finite (- q)%Qc
  | PosInf => NegInf
  | NegInf => PosInf
  | NaN => NaN
  end.

Definition fadd (a b : float) : float :=
  match a, b with
  | NaN, _ | _, NaN => NaN
  | Finite p, Finite q => Finite (p + q)%Qc
  | PosInf, NegInf | NegInf, PosInf => NaN
  | PosInf, _ | _, PosInf => PosInf
  | NegInf, _ | _, NegInf => NegInf
  end.

Definition fsub (a b : float) : float := fadd a (fopp b).

(** Sign of a non-NaN value: [Some true] negative, [Some false] positive,
    [None] zero. *)
Definition fsign (a : float) : option bool :=
  match a with
  | Finite q => if qc_pos q then Some false else if qc_neg q then Some true else None
  | PosInf => Some false
  | NegInf => Some true
  | NaN => None
  end.

Definition fmul (a b : float) : float :=
  match a, b with
  | NaN, _ | _, NaN => NaN
  | Finite p, Finite q => Finite (p * q)%Qc
  | _, _ =>
      match fsign a, fsign b with
      | Some s, Some t => inf_of_sign (xorb s t)
      | _, _ => NaN
      end
  end.

(** numpy division: a finite non-zero value over zero is an infinity, zero
    over zero is NaN; nothing is raised. *)
Definition fdiv (a b : float) : float :=
  match a, b with
  | NaN, _ | _, NaN => NaN
  | Finite p, Finite q =>
      if bool_decide (q = 0%Qc) then
        match fsign a with
        | Some s => inf_of_sign s
        | None => NaN
        end
      else Finite (p / q)%Qc
  | Finite _, _ => Finite 0%Qc
  | _, Finite q => inf_of_sign (xorb (bool_decide (a = NegInf)) (qc_neg q))
  | _, _ => NaN
  end.

Definition fle (a b : float) : bool :=
  match a, b with
  | NaN, _ | _, NaN => false
  | Finite p, Finite q => bool_decide (p <= q)%Qc
  | NegInf, _ | _, PosInf => true
  | _, _ => false
  end.

Definition flt (a b : float) : bool :=
  match a, b with
  | NaN, _ | _, NaN => false
  | Finite p, Finite q => bool_decide (p < q)%Qc
  | PosInf, _ | _, NegInf => false
  | _, _ => true
  end.

Definition isnan (a : float) : bool :=
  match a with NaN => true | _ => false end.

Definition of_Z (z : Z) : float := Finite (Qc_of_Z z).
Definition of_nat (n : nat) : float := of_Z (Z.of_nat n).

(** Python's [int(x)] on a float: truncation toward zero; NaN and the
    infinities raise. *)
Definition qc_trunc (q : Qc) : Z := Z.quot (Qnum (this q)) (Zpos (Qden (this q))).

Definition py_int (a : float) : result Z :=
  match a with
  | Finite q => Ok (qc_trunc q)
  | PosInf | NegInf => Err OverflowError
  | NaN => Err (ValueError "cannot convert float NaN to integer")
  end.

(** ** DataFrames *)

Inductive cell :=
| Num (x : float)
| Str (s : string).

#[global] Instance cell_eq_dec : EqDecision cell.
Proof. solve_decision. Defined.

(** A missing value (NaN, None) is the cell [Num NaN]. *)
Definition isna (c : cell) : bool :=
  match c with Num NaN => true | _ => false end.

Definition as_float (c : cell) : result float :=
  match c with Num x => Ok x | Str _ => Err TypeError end.

(** Element-wise arithmetic of object columns follows Python: two strings
    concatenate under [+], every other use of a string raises. *)
Definition cell_add (a b : cell) : result cell :=
  match a, b with
  | Num x, Num y => Ok (Num (fadd x y))
  | Str s, Str t => Ok (Str (s +:+ t))
  | _, _ => Err TypeError
  end.

Definition cell_scale (a : cell) (k : float) : result cell :=
  match a with
  | Num x => Ok (Num (fmul x k))
  | Str _ => Err TypeError
  end.

Definition cell_sub (a b : cell) : result cell :=
  match a, b with
  | Num x, Num y => Ok (Num (fsub x y))
  | _, _ => Err TypeError
  end.

Definition cell_div (a b : cell) : result cell :=
  match a, b with
  | Num x, Num y => Ok (Num (fdiv x y))
  | _, _ => Err TypeError
  end.

Abbreviation row := (gmap string cell).

Record frame := Frame { columns : list string; rows : list row }.

(** [pd.DataFrame()] *)
Definition empty_frame : frame := Frame [] [].

(** [df.empty]: some axis has length zero. *)
Definition frame_empty (df : frame) : bool :=
  match columns df, rows df with
  | [], _ | _, [] => true
  | _, _ => false
  end.

Definition at_label (r : row) (c : string) : cell := default (Num NaN) (r !! c).

Definition has_column (df : frame) (c : string) : bool :=
  bool_decide (c ∈ columns df).

(** [df[c]] *)
Definition getitem (df : frame) (c : string) : result (list cell) :=
  if has_column df c then Ok ((fun r => at_label r c) <$> rows df)
  else Err (KeyError c).

Definition check_label (df : frame) (c : string) : result unit :=
  if has_column df c then Ok () else Err (KeyError c).

Definition project (cols : list string) (r : row) : row :=
  list_to_map ((fun c => (c, at_label r c)) <$> cols).

(** [df[[c1, ..., cn]]] *)
Definition select (df : frame) (cols : list string) : result frame :=
  _ ← traverse (check_label df) cols;
  Ok (Frame cols (project cols <$> rows df)).

Definition add_label (cols : list string) (c : string) : list string :=
  if bool_decide (c ∈ cols) then cols else cols ++ [c].

(** [df[c] = series], the series aligned with the rows of [df]. *)
Definition setitem (df : frame) (c : string) (vals : list cell) : frame :=
  Frame (add_label (columns df) c)
        (zip_with (fun r v => <[c := v]> r) (rows df) vals).

(** [df[c] = scalar] *)
Definition setitem_const (df : frame) (c : string) (v : cell) : frame :=
  Frame (add_label (columns df) c) ((fun r => <[c := v]> r) <$> rows df).

Fixpoint assoc (k : string) (l : list (string * string)) : option string :=
  match l with
  | [] => None
  | (k', v) :: l' => if bool_decide (k = k') then Some v else assoc k l'
  end.

Definition rename_label (mapping : list (string * string)) (c : string) : string :=
  default c (assoc c mapping).

(** [df.rename(columns=mapping)] *)
Definition rename (df : frame) (mapping : list (string * string)) : frame :=
  Frame (rename_label mapping <$> columns df)
        ((fun r => list_to_map ((fun c => (rename_label mapping c, at_label r c))
                                  <$> columns df)) <$> rows df).

(** [pd.concat([a, b], ignore_index=True)]: the labels of [a], then the new
    ones of [b]; rows of [a], then rows of [b].  Aligning a frame whose
    labels repeat is refused by pandas. *)
Definition concat (a b : frame) : result frame :=
  if bool_decide (NoDup (columns a)) && bool_decide (NoDup (columns b)) then
    Ok (Frame (columns a ++ filter (fun c => c ∉ columns a) (columns b))
              (rows a ++ rows b))
  else Err InvalidIndexError.

Definition complete (subset : list string) (r : row) : bool :=
  forallb (fun c => negb (isna (at_label r c))) subset.

(** [df.dropna(subset=...)] *)
Definition dropna (df : frame) (subset : list string) : result frame :=
  _ ← traverse (check_label df) subset;
  Ok (Frame (columns df) (filter (fun r => complete subset r = true) (rows df))).

Fixpoint select_mask {A} (l : list A) (mask : list bool) : list A :=
  match l, mask with
  | x :: l', b :: mask' => if b then x :: select_mask l' mask' else select_mask l' mask'
  | _, _ => []
  end.

(** [df[mask]] *)
Definition where_ (df : frame) (mask : list bool) : frame :=
  Frame (columns df) (select_mask (rows df) mask).

(** ** Column statistics (NaN is skipped; a string raises) *)

Definition numbers (cs : list cell) : result (list float) :=
  xs ← traverse as_float cs;
  Ok (filter (fun x => isnan x = false) xs).

Definition fsum (xs : list float) : float := foldl fadd (Finite 0) xs.

Definition fmean (xs : list float) : float :=
  match xs with
  | [] => NaN
  | _ => fdiv (fsum xs) (of_nat (length xs))
  end.

(** [Series.min()] and [Series.max()] on the numbers of a column: NaN when
    there is none. *)
Definition fmin (xs : list float) : float :=
  match xs with
  | [] => NaN
  | x :: xs' => foldl (fun a b => if flt b a then b else a) x xs'
  end.

Definition fmax (xs : list float) : float :=
  match xs with
  | [] => NaN
  | x :: xs' => foldl (fun a b => if flt a b then b else a) x xs'
  end.

Definition fle_rel (a b : float) : Prop := fle a b = true.
#[global] Instance fle_rel_dec : RelDecision fle_rel.
Proof. intros a b. unfold fle_rel. apply _. Defined.

Definition fsorted (xs : list float) : list float := merge_sort fle_rel xs.

Definition nth_float (xs : list float) (i : nat) : float := default NaN (xs !! i).

Definition fmedian (xs : list float) : float :=
  let s := fsorted xs in
  let n := length s in
  match n with
  | O => NaN
  | _ =>
      if Nat.odd n then nth_float s (n / 2)
      else fdiv (fadd (nth_float s (n / 2 - 1)) (nth_float s (n / 2))) (of_Z 2)
  end.

(** numpy's linear interpolation between two neighbours of the sorted
    sample. *)
Definition lerp (a b : float) (t : Qc) : float :=
  let d := fsub b a in
  if bool_decide (Q2Qc (1 # 2) <= t)%Qc
  then fsub b (fmul d (Finite (1 - t)%Qc))
  else fadd a (fmul d (Finite t)).

(** [series.quantile(q)], default (linear) interpolation. *)
Definition fquantile (q : Qc) (xs : list float) : float :=
  let s := fsorted xs in
  let n := length s in
  match n with
  | O => NaN
  | S m =>
      let pos := (q * Qc_of_Z (Z.of_nat m))%Qc in
      let lo := Z.to_nat (Qfloor (this pos)) in
      let t := (pos - Qc_of_Z (Z.of_nat lo))%Qc in
      lerp (nth_float s lo) (nth_float s (Nat.min (lo + 1) m)) t
  end.

(** Element-wise lifting of a binary operation to two aligned columns. *)
Definition column_op (f : cell -> cell -> result cell) (a b : list cell)
  : result (list cell) :=
  traverse (fun p => f p.1 p.2) (zip a b).

(** [df.median()] of one column, and [df.fillna(df.median())]. *)
Definition column_median (df : frame) (c : string) : result float :=
  cs ← getitem df c;
  xs ← numbers cs;
  Ok (fmedian xs).

Definition fill_cell (m : float) (v : cell) : cell :=
  if isna v then Num m else v.

Definition fillna_median (df : frame) : result frame :=
  meds ← traverse (fun c => m ← column_median df c; Ok (c, m)) (columns df);
  Ok (Frame (columns df)
            ((fun r => foldr (fun cm acc => <[cm.1 := fill_cell cm.2 (at_label r cm.1)]> acc)
                             r meds) <$> rows df)).

(** [series.unique()]: the distinct values in order of first appearance. *)
Fixpoint unique (l : list cell) : list cell :=
  match l with
  | [] => []
  | x :: l' => x :: filter (fun y => y ≠ x) (unique l')
  end.

(** [a == b] on two cells: a missing value equals nothing. *)
Definition cell_eqb (a b : cell) : bool :=
  negb (isna a) && negb (isna b) && bool_decide (a = b).

(** * src/data/dagster_assets.py *)

Module Assets.

(** The seven assets of the pipeline and what the [except Exception] clause
    of each one does once the failure is logged: [raise] or
    [return pd.DataFrame()]. *)
Inductive asset :=
| BoulderCountyTransactions
| RentcastProperties
| ProcessedProperties
| MarketTrends
| MlTrainingData
| DatabaseConnection
| LoadToDatabase.

Inductive handler := Reraise | ReturnEmpty.

Definition on_exception (a : asset) : handler :=
  match a with
  | BoulderCountyTransactions => Reraise
  | RentcastProperties => ReturnEmpty
  | ProcessedProperties => Reraise
  | MarketTrends => ReturnEmpty
  | MlTrainingData => ReturnEmpty
  | DatabaseConnection => Reraise
  | LoadToDatabase => Reraise
  end.

(** [try: body  except Exception as e: logger.error(...); <handler>] *)
Definition guarded {A} (a : asset) (empty : A) (body : result A) : result A :=
  match body with
  | Ok v => Ok v
  | Err e =>
      match on_exception a with
      | Reraise => Err e
      | ReturnEmpty => Ok empty
      end
  end.

(** ** The report of an asset on its result

    Each asset below ends with
    [context.add_output_metadata({name: MetadataValue.int(...), ...})]
    just before its [return], inside its [try]: an exception raised there
    goes to the asset's handler.  [MetadataValue.int], [MetadataValue.text]
    and [add_output_metadata] are code of the orchestration library, not of
    the repository: they are the fields of [Reporting], and each may return
    or raise.  A number handed to [MetadataValue.int] keeps the kind it has
    in Python, a built-in [int] (from [len]) or a NumPy float (from
    [.mean()]), since a check of the library can tell them apart.  The
    texts are built with Python's [str(x)] and [format(x, ',')], which are
    fields as well; they return on every value. *)
Inductive scalar :=
| PyInt (n : Z)
| Float64 (x : float).

Class Reporting := {
  metadata_value : Type;
  MetadataValue_int : scalar -> result metadata_value;
  MetadataValue_text : string -> result metadata_value;
  add_output_metadata : list (string * metadata_value) -> result unit;
  py_str : cell -> string;
  py_format_grouped : float -> string
}.

Definition len (df : frame) : scalar := PyInt (Z.of_nat (length (rows df))).

Section assets.
Context {reporting : Reporting}.

(** [f"${lo:,} - ${hi:,}"] *)
Definition dollar_range (lo hi : float) : string :=
  "$" +:+ py_format_grouped lo +:+ " - $" +:+ py_format_grouped hi.

(** What [requests.get] gives for one postal code, when it returns. *)
Record response := Response { status_code : Z; properties : list row }.

Definition boulder_zip_codes : list string :=
  [ "80301"; "80302"; "80303"; "80304"; "80305";
    "80026"; "80027";
    "80516";
    "80501"; "80503"; "80504";
    "80027" ].

(** The loop over the postal codes: a response other than 200 is skipped,
    an exception of the call ends the loop. *)
Fixpoint fetch_all (get : string -> result response) (zips : list string)
  : result (list row) :=
  match zips with
  | [] => Ok []
  | zip :: zips' =>
      resp ← get zip;
      rest ← fetch_all get zips';
      if bool_decide (status_code resp = 200%Z)
      then Ok (properties resp ++ rest)
      else Ok rest
  end.

(** [pd.DataFrame(records)]: the labels are the keys that occur (their
    order is not tracked). *)
Definition frame_of_records (records : list row) : frame :=
  Frame (remove_dups (records ≫= fun r => (map_to_list r).*1)) records.

(** [df.get('zestimate', pd.Series())] *)
Definition get_zestimate (df : frame) : list cell :=
  if has_column df "zestimate"
  then (fun r => at_label r "zestimate") <$> rows df
  else [].

Definition rentcast_report (df : frame) : result unit :=
  num_properties ← MetadataValue_int (len df);
  zip_codes_covered ←
    MetadataValue_text (String.concat ", " (take 5 boulder_zip_codes));
  zestimate ← numbers (get_zestimate df);
  avg_price ← MetadataValue_int (Float64 (fmean zestimate));
  add_output_metadata
    [ ("num_properties", num_properties);
      ("zip_codes_covered", zip_codes_covered);
      ("avg_price", avg_price) ].

Definition rentcast_properties_body (get : string -> result response)
  : result frame :=
  all_properties ← fetch_all get (take 5 boulder_zip_codes);
  match all_properties with
  | [] => Ok empty_frame
  | _ =>
      let df := frame_of_records all_properties in
      _ ← rentcast_report df;
      Ok df
  end.

(** Without a credential nothing is fetched. *)
Definition rentcast_properties (api_key : option string)
  (get : string -> result response) : result frame :=
  match api_key with
  | None | Some "" => Ok empty_frame
  | Some _ => guarded RentcastProperties empty_frame (rentcast_properties_body get)
  end.

Definition boulder_columns : list string :=
  [ "parcel_nb"; "property_address"; "city"; "sale_date"; "sale_price";
    "bedrooms"; "full_baths"; "three_qtr_baths"; "half_baths";
    "above_ground_sqft"; "finished_bsmt_sqft"; "unfinished_bsmt_sqft";
    "garage_sqft"; "year_built"; "land_value"; "bldg_value" ].

Definition column_mapping : list (string * string) :=
  [ ("id", "id");
    ("formattedAddress", "formatted_address");
    ("addressLine1", "address_line1");
    ("city", "city");
    ("state", "state");
    ("zipCode", "zip_code");
    ("bedrooms", "bedrooms");
    ("bathrooms", "bathrooms");
    ("squareFootage", "square_footage");
    ("yearBuilt", "year_built");
    ("zestimate", "zestimate");
    ("lastSalePrice", "last_sale_price");
    ("lastSaleDate", "last_sale_date") ].

Definition required_fields : list string := ["sale_price"; "bedrooms"; "bathrooms"].

Definition f0_75 : float := Finite (Q2Qc (3 # 4)).
Definition f0_5 : float := Finite (Q2Qc (1 # 2)).
Definition f1_5 : float := Finite (Q2Qc (3 # 2)).

(** The loader's frame with the derived columns, tagged with its source. *)
Definition boulder_properties (boulder_county_transactions : frame) : result frame :=
  bp ← select boulder_county_transactions boulder_columns;
  full ← getitem bp "full_baths";
  three_qtr ← getitem bp "three_qtr_baths";
  three_qtr ← traverse (fun c => cell_scale c f0_75) three_qtr;
  acc ← column_op cell_add full three_qtr;
  half ← getitem bp "half_baths";
  half ← traverse (fun c => cell_scale c f0_5) half;
  bathrooms ← column_op cell_add acc half;
  let bp := setitem bp "bathrooms" bathrooms in
  above ← getitem bp "above_ground_sqft";
  bsmt ← getitem bp "finished_bsmt_sqft";
  square_footage ← column_op cell_add above bsmt;
  let bp := setitem bp "square_footage" square_footage in
  let bp := setitem_const bp "data_source" (Str "boulder_county") in
  parcel ← getitem bp "parcel_nb";
  Ok (setitem bp "id" parcel).

Definition rentcast_df (rentcast_properties : frame) : frame :=
  rename (setitem_const rentcast_properties "data_source" (Str "rentcast"))
         column_mapping.

Definition combined_df (boulder_county_transactions rentcast_properties : frame)
  : result frame :=
  bp ← boulder_properties boulder_county_transactions;
  if negb (frame_empty rentcast_properties)
  then concat bp (rentcast_df rentcast_properties)
  else Ok bp.

(** The bounds [(price_lower, price_upper)] of a price column. *)
Definition price_bounds (prices : list cell) : result (float * float) :=
  xs ← numbers prices;
  let price_q1 := fquantile (Q2Qc (1 # 4)) xs in
  let price_q3 := fquantile (Q2Qc (3 # 4)) xs in
  let price_iqr := fsub price_q3 price_q1 in
  Ok (fsub price_q1 (fmul f1_5 price_iqr), fadd price_q3 (fmul f1_5 price_iqr)).

Definition remove_outliers (df : frame) : result frame :=
  prices ← getitem df "sale_price";
  '(price_lower, price_upper) ← price_bounds prices;
  ge ← traverse (fun c => x ← as_float c; Ok (fle price_lower x)) prices;
  le ← traverse (fun c => x ← as_float c; Ok (fle x price_upper)) prices;
  Ok (where_ df (zip_with andb ge le)).

(** The report of the merger: the sizes of the result and of the two
    sources, the range and the mean of the prices kept. *)
Definition processed_report
  (combined_df boulder_properties rentcast_properties : frame) : result unit :=
  total_properties ← MetadataValue_int (len combined_df);
  boulder_county_properties ← MetadataValue_int (len boulder_properties);
  rentcast_count ← MetadataValue_int (len rentcast_properties);
  prices ← getitem combined_df "sale_price";
  prices ← numbers prices;
  price_range ← MetadataValue_text (dollar_range (fmin prices) (fmax prices));
  avg_price ← MetadataValue_int (Float64 (fmean prices));
  add_output_metadata
    [ ("total_properties", total_properties);
      ("boulder_county_properties", boulder_county_properties);
      ("rentcast_properties", rentcast_count);
      ("price_range", price_range);
      ("avg_price", avg_price) ].

Definition processed_properties_body
  (boulder_county_transactions rentcast_properties : frame) : result frame :=
  combined ← combined_df boulder_county_transactions rentcast_properties;
  cleaned ← dropna combined required_fields;
  kept ← remove_outliers cleaned;
  bp ← boulder_properties boulder_county_transactions;
  _ ← processed_report kept bp rentcast_properties;
  Ok kept.

Definition processed_properties
  (boulder_county_transactions rentcast_properties : frame) : result frame :=
  guarded ProcessedProperties empty_frame
    (processed_properties_body boulder_county_transactions rentcast_properties).

(** One row of the trends table. *)
Record trend := Trend {
  zip_code : cell;
  date : Z;
  data_source : string;
  avg_price : Z;
  median_price : Z;
  price_per_sqft : float;
  inventory_count : nat;
  sales_count : nat
}.

(** [processed_properties[processed_properties['zip_code'] == zip_code]] *)
Definition zip_rows (df : frame) (zip : cell) : list row :=
  filter (fun r => cell_eqb (at_label r "zip_code") zip = true) (rows df).

Definition zip_data (df : frame) (zip : cell) : frame :=
  Frame (columns df) (zip_rows df zip).

(** The dictionary built for one postal code with enough rows. *)
Definition trend_of (today : Z) (df : frame) (zip : cell) : result trend :=
  let zd := zip_data df zip in
  prices ← getitem zd "sale_price";
  prices ← numbers prices;
  avg ← py_int (fmean prices);
  med ← py_int (fmedian prices);
  area ← getitem zd "square_footage";
  area ← numbers area;
  Ok (Trend zip today "combined" avg med (fdiv (fsum prices) (fsum area))
            (length (rows zd)) (length (rows zd))).

(** The loop over [processed_properties['zip_code'].unique()]. *)
Fixpoint trends_loop (today : Z) (df : frame) (zips : list cell)
  : result (list trend) :=
  match zips with
  | [] => Ok []
  | zip :: zips' =>
      if isna zip then trends_loop today df zips'
      else if bool_decide (length (zip_rows df zip) < 5)%nat
           then trends_loop today df zips'
           else
             t ← trend_of today df zip;
             ts ← trends_loop today df zips';
             Ok (t :: ts)
  end.

(** [trends_df['zip_code']]: a table made from no record has no column. *)
Definition trends_zip_codes (trends : list trend) : result (list cell) :=
  match trends with
  | [] => Err (KeyError "zip_code")
  | _ => Ok (zip_code <$> trends)
  end.

(** The report of the aggregator: the number of records, their postal
    codes, the mean of their mean prices. *)
Definition trends_report (trends : list trend) : result unit :=
  num_zip_codes ← MetadataValue_int (PyInt (Z.of_nat (length trends)));
  zips ← trends_zip_codes trends;
  zip_codes ← MetadataValue_text (String.concat ", " (py_str <$> zips));
  avg_market_price ←
    MetadataValue_int (Float64 (fmean ((fun t => of_Z (avg_price t)) <$> trends)));
  add_output_metadata
    [ ("num_zip_codes", num_zip_codes);
      ("zip_codes", zip_codes);
      ("avg_market_price", avg_market_price) ].

Definition market_trends_body (today : Z) (processed_properties : frame)
  : result (list trend) :=
  if frame_empty processed_properties then Ok []
  else
    zips ← getitem processed_properties "zip_code";
    trends ← trends_loop today processed_properties (unique zips);
    _ ← trends_report trends;
    Ok trends.

(** The table of trends is the list of its rows; [pd.DataFrame()] is [[]]. *)
Definition market_trends (today : Z) (processed_properties : frame)
  : result (list trend) :=
  guarded MarketTrends [] (market_trends_body today processed_properties).

Definition features : list string :=
  [ "bedrooms"; "bathrooms"; "square_footage"; "year_built";
    "land_value"; "bldg_value"; "garage_sqft" ].

(** [X = df[features]], [y = df['sale_price']], missing features filled with
    the column medians, rows without target removed. *)
Definition feature_matrix (df : frame) : result (frame * list cell) :=
  X ← select df features;
  y ← getitem df "sale_price";
  X ← fillna_median X;
  let mask := (fun c => negb (isna c)) <$> y in
  Ok (where_ X mask, select_mask y mask).

(** The engineered columns both modules add to [X]. *)
Definition engineered (now_year : Z) (X : frame) (y : list cell) : result frame :=
  area ← getitem X "square_footage";
  pps ← column_op cell_div y area;
  let X := setitem X "price_per_sqft" pps in
  baths ← getitem X "bathrooms";
  let X := setitem X "total_bathrooms" baths in
  built ← getitem X "year_built";
  age ← traverse (fun c => cell_sub (Num (of_Z now_year)) c) built;
  let X := setitem X "age" age in
  land ← getitem X "land_value";
  bldg ← getitem X "bldg_value";
  bldg1 ← traverse (fun c => cell_add c (Num (of_Z 1))) bldg;
  ratio ← column_op cell_div land bldg1;
  Ok (setitem X "land_to_building_ratio" ratio).

(** The report of the training-data asset: the number of rows, the
    feature labels, the range and the mean of the target. *)
Definition training_report (training_data X : frame) (y : list cell)
  : result unit :=
  training_samples ← MetadataValue_int (len training_data);
  features ← MetadataValue_text (String.concat ", " (columns X));
  target ← numbers y;
  target_range ← MetadataValue_text (dollar_range (fmin target) (fmax target));
  avg_target ← MetadataValue_int (Float64 (fmean target));
  add_output_metadata
    [ ("training_samples", training_samples);
      ("features", features);
      ("target_range", target_range);
      ("avg_target", avg_target) ].

Definition ml_training_data_body (now_year : Z) (processed_properties : frame)
  : result frame :=
  if frame_empty processed_properties then Ok empty_frame
  else
    '(X, y) ← feature_matrix processed_properties;
    X ← engineered now_year X y;
    let training_data := setitem X "sale_price" y in
    _ ← training_report training_data X y;
    Ok training_data.

Definition ml_training_data (now_year : Z) (processed_properties : frame)
  : result frame :=
  guarded MlTrainingData empty_frame
    (ml_training_data_body now_year processed_properties).

End assets.

End Assets.

(** * src/models/price_predictor.py *)

Module Predictor.

(** The estimators the module can construct, with their hyper-parameters. *)
Inductive estimator_spec :=
| RandomForestRegressor (n_estimators max_depth random_state : Z)
| GradientBoostingRegressor (n_estimators max_depth random_state : Z)
| LinearRegression.

(** scikit-learn and numpy, as far as the module calls them.  The calls are
    taken as total: what an estimator or a metric computes is not modelled,
    where it is called and on what is.  [permutation n] is the shuffle of
    [0 .. n-1] that the seed 42 gives. *)
Class Sklearn := {
  fitted_scaler : Type;
  ndarray : Type;
  fitted_estimator : Type;
  permutation : nat -> list nat;
  permutation_perm : forall n, permutation n ≡ₚ seq 0 n;
  scaler_fit : frame -> fitted_scaler;
  scaler_apply : fitted_scaler -> frame -> ndarray;
  estimator_fit : estimator_spec -> frame + ndarray -> list cell -> fitted_estimator;
  estimator_predict : fitted_estimator -> frame + ndarray -> list float;
  feature_importances_ : fitted_estimator -> option (list float);
  mean_absolute_error : list cell -> list float -> float;
  mean_squared_error : list cell -> list float -> float;
  r2_score : list cell -> list float -> float;
  np_sqrt : float -> float
}.

(** [l.iloc[idx]] *)
Definition take_rows {A} (idx : list nat) (l : list A) : list A :=
  omap (fun i => l !! i) idx.

(** [ceil(0.2 * n)] *)
Definition n_test (n : nat) : nat := (n + 4) / 5.

Section predictor.
Context {lib : Sklearn}.

(** The library calls a run performs, oldest first. *)
Inductive call :=
| ScalerFit (X : frame)
| ScalerTransform (X : frame)
| EstimatorFit (spec : estimator_spec) (X : frame + ndarray) (y : list cell)
| EstimatorPredict (X : frame + ndarray).

(** The attributes of a [HousingPricePredictor]; [scaler = None] is the
    [StandardScaler()] that was never fitted. *)
Record predictor := Predictor {
  model_type : string;
  model : option fitted_estimator;
  scaler : option fitted_scaler;
  feature_names : option (list string);
  feature_importance : option (list (string * float));
  training_metrics : gmap string float
}.

Record world := World { self : predictor; calls : list call }.

(** Methods run in a state-and-exception monad: attribute assignments made
    before an exception is raised stay. *)
Definition M (A : Type) : Type := world -> result A * world.

Definition ret {A} (a : A) : M A := fun w => (Ok a, w).
Definition bind {A B} (f : A -> M B) (m : M A) : M B :=
  fun w => match m w with
           | (Ok a, w') => f a w'
           | (Err e, w') => (Err e, w')
           end.
#[local] Instance M_ret : MRet M := @ret.
#[local] Instance M_bind : MBind M := @bind.

Definition raise {A} (e : exn) : M A := fun w => (Err e, w).
Definition lift {A} (r : result A) : M A := fun w => (r, w).
Definition get_self : M predictor := fun w => (Ok (self w), w).
Definition set_self (f : predictor -> predictor) : M unit :=
  fun w => (Ok (), World (f (self w)) (calls w)).
Definition record_call (c : call) : M unit :=
  fun w => (Ok (), World (self w) (calls w ++ [c])).

(** [__init__] *)
Definition init (model_type : string) : predictor :=
  Predictor model_type None None None None ∅.

Definition feature_columns : list string :=
  [ "bedrooms"; "bathrooms"; "square_footage"; "year_built";
    "land_value"; "bldg_value"; "garage_sqft" ].

Definition set_feature_names (names : list string) (p : predictor) : predictor :=
  Predictor (model_type p) (model p) (scaler p) (Some names)
            (feature_importance p) (training_metrics p).

Definition prepare (now_year : Z) (data : frame) : result (frame * list cell) :=
  X ← select data feature_columns;
  y ← getitem data "sale_price";
  X ← fillna_median X;
  let mask := (fun c => negb (isna c)) <$> y in
  let X := where_ X mask in
  let y := select_mask y mask in
  area ← getitem X "square_footage";
  pps ← column_op cell_div y area;
  let X := setitem X "price_per_sqft" pps in
  baths ← getitem X "bathrooms";
  let X := setitem X "total_bathrooms" baths in
  built ← getitem X "year_built";
  age ← traverse (fun c => cell_sub (Num (of_Z now_year)) c) built;
  let X := setitem X "age" age in
  land ← getitem X "land_value";
  bldg ← getitem X "bldg_value";
  bldg1 ← traverse (fun c => cell_add c (Num (of_Z 1))) bldg;
  ratio ← column_op cell_div land bldg1;
  let X := setitem X "land_to_building_ratio" ratio in
  area ← getitem X "square_footage";
  garage ← getitem X "garage_sqft";
  total ← column_op cell_add area garage;
  Ok (setitem X "total_sqft" total, y).

Definition prepare_features (now_year : Z) (data : frame) : M (frame * list cell) :=
  '(X, y) ← lift (prepare now_year data);
  _ ← set_self (set_feature_names (columns X));
  mret (X, y).

(** [train_test_split(X, y, test_size=0.2, random_state=42)]: the first
    [ceil(0.2 * n)] indices of the shuffle are the test rows, the others the
    train rows; the result is [(X_train, X_test, y_train, y_test)]. *)
Definition train_test_split (X : frame) (y : list cell)
  : frame * frame * list cell * list cell :=
  let n := length (rows X) in
  let test := take (n_test n) (permutation n) in
  let train := drop (n_test n) (permutation n) in
  (Frame (columns X) (take_rows train (rows X)),
   Frame (columns X) (take_rows test (rows X)),
   take_rows train y,
   take_rows test y).

Definition insufficient_data (n : nat) : exn :=
  ValueError ("Insufficient data for training: " +:+ pretty n +:+ " samples").

Definition not_trained : exn :=
  ValueError "Model must be trained before making predictions".

(** The [if]/[elif] chain on [self.model_type] that constructs the
    estimator. *)
Definition new_estimator (model_type : string) : result estimator_spec :=
  if bool_decide (model_type = "random_forest")
  then Ok (RandomForestRegressor 100 10 42)
  else if bool_decide (model_type = "gradient_boosting")
  then Ok (GradientBoostingRegressor 100 6 42)
  else if bool_decide (model_type = "linear")
  then Ok LinearRegression
  else Err (ValueError ("Unknown model type: " +:+ model_type)).

Definition set_scaler (sc : fitted_scaler) (p : predictor) : predictor :=
  Predictor (model_type p) (model p) (Some sc) (feature_names p)
            (feature_importance p) (training_metrics p).

Definition set_model (m : fitted_estimator) (p : predictor) : predictor :=
  Predictor (model_type p) (Some m) (scaler p) (feature_names p)
            (feature_importance p) (training_metrics p).

Definition set_feature_importance (fi : list (string * float)) (p : predictor)
  : predictor :=
  Predictor (model_type p) (model p) (scaler p) (feature_names p)
            (Some fi) (training_metrics p).

Definition set_training_metrics (tm : gmap string float) (p : predictor)
  : predictor :=
  Predictor (model_type p) (model p) (scaler p) (feature_names p)
            (feature_importance p) tm.

(** [self.scaler.fit_transform(X)] *)
Definition scaler_fit_transform (X : frame) : M ndarray :=
  _ ← record_call (ScalerFit X);
  _ ← set_self (set_scaler (scaler_fit X));
  _ ← record_call (ScalerTransform X);
  mret (scaler_apply (scaler_fit X) X).

(** [self.scaler.transform(X)] *)
Definition scaler_transform (X : frame) : M ndarray :=
  p ← get_self;
  match scaler p with
  | None => raise NotFittedError
  | Some sc =>
      _ ← record_call (ScalerTransform X);
      mret (scaler_apply sc X)
  end.

(** [self.model = spec; self.model.fit(X, y)] *)
Definition model_fit (spec : estimator_spec) (X : frame + ndarray) (y : list cell)
  : M unit :=
  _ ← record_call (EstimatorFit spec X y);
  set_self (set_model (estimator_fit spec X y)).

(** [self.model.predict(X)] *)
Definition model_predict (X : frame + ndarray) : M (list float) :=
  p ← get_self;
  match model p with
  | None => raise not_trained
  | Some m =>
      _ ← record_call (EstimatorPredict X);
      mret (estimator_predict m X)
  end.

Definition fabs (a : float) : float :=
  match a with
  | Finite q => if qc_neg q then Finite (- q)%Qc else a
  | NegInf => PosInf
  | _ => a
  end.

(** [np.mean(np.abs((y_test - y_pred) / y_test)) * 100] *)
Definition mape (y_test : list cell) (y_pred : list float) : result float :=
  errs ← traverse (fun p => d ← cell_sub p.1 (Num p.2);
                            r ← cell_div d p.1;
                            x ← as_float r;
                            Ok (Num (fabs x)))
                  (zip y_test y_pred);
  xs ← numbers errs;
  Ok (fmul (fmean xs) (of_Z 100)).

Definition metrics_dict (mae mse rmse r2 mape : float)
  (training_samples test_samples feature_count : nat) : gmap string float :=
  <["mae" := mae]> (<["mse" := mse]> (<["rmse" := rmse]> (<["r2" := r2]>
  (<["mape" := mape]> (<["training_samples" := of_nat training_samples]>
  (<["test_samples" := of_nat test_samples]>
  (<["feature_count" := of_nat feature_count]> ∅))))))).

Definition train (now_year : Z) (data : frame) : M (gmap string float) :=
  '(X, y) ← prepare_features now_year data;
  if bool_decide (length (rows X) < 50)%nat
  then raise (insufficient_data (length (rows X)))
  else
    let '(X_train, X_test, y_train, y_test) := train_test_split X y in
    X_train_scaled ← scaler_fit_transform X_train;
    X_test_scaled ← scaler_transform X_test;
    p ← get_self;
    spec ← lift (new_estimator (model_type p));
    y_pred ← (if bool_decide (model_type p = "linear")
              then _ ← model_fit spec (inr X_train_scaled) y_train;
                   model_predict (inr X_test_scaled)
              else _ ← model_fit spec (inl X_train) y_train;
                   model_predict (inl X_test));
    let mae := mean_absolute_error y_test y_pred in
    let mse := mean_squared_error y_test y_pred in
    let rmse := np_sqrt mse in
    let r2 := r2_score y_test y_pred in
    mape ← lift (mape y_test y_pred);
    p ← get_self;
    _ ← match model p ≫= feature_importances_ with
        | Some importances =>
            set_self (set_feature_importance
                        (zip (default [] (feature_names p)) importances))
        | None => mret ()
        end;
    let tm := metrics_dict mae mse rmse r2 mape
                (length (rows X_train)) (length (rows X_test))
                (length (default [] (feature_names p))) in
    _ ← set_self (set_training_metrics tm);
    mret tm.

Definition predict (property_data : frame) : M (list float) :=
  p ← get_self;
  match model p with
  | None => raise not_trained
  | Some _ =>
      names ← match feature_names p with
              | Some names => mret names
              | None => raise (KeyError "None")
              end;
      X ← lift (select property_data names);
      X ← lift (fillna_median X);
      X_scaled ← scaler_transform X;
      if bool_decide (model_type p = "linear")
      then model_predict (inr X_scaled)
      else model_predict (inl X)
  end.

(** Python's two-argument [min] and [max]: the first argument is kept
    unless the second is strictly smaller (larger). *)
Definition py_min (a b : float) : float := if flt b a then b else a.
Definition py_max (a b : float) : float := if flt a b then b else a.

Definition f0_95 : float := Finite (Q2Qc (95 # 100)).
Definition f0_7 : float := Finite (Q2Qc (7 # 10)).

(** [max(0.5, min(0.95, self.training_metrics.get('r2', 0.7)))] *)
Definition confidence_of (tm : gmap string float) : float :=
  py_max Assets.f0_5 (py_min f0_95 (default f0_7 (tm !! "r2"))).

(** [a / b] on two Python integers. *)
Definition py_truediv (a b : Z) : result float :=
  if bool_decide (b = 0%Z) then Err ZeroDivisionError
  else Ok (fdiv (of_Z a) (of_Z b)).

Record prediction := Prediction {
  predicted_price : Z;
  confidence : float;
  features_used : option (list string);
  used_model_type : string
}.

(** The one-row frame [predict_single_property] builds. *)
Definition property_frame (now_year : Z) (bedrooms : Z) (bathrooms : float)
  (square_footage year_built : Z) (land_value bldg_value garage_sqft : option Z)
  : result frame :=
  let land := default 0%Z land_value in
  let bldg := default 0%Z bldg_value in
  let garage := default 0%Z garage_sqft in
  let df := Frame feature_columns
              [ <["bedrooms" := Num (of_Z bedrooms)]>
                (<["bathrooms" := Num bathrooms]>
                (<["square_footage" := Num (of_Z square_footage)]>
                (<["year_built" := Num (of_Z year_built)]>
                (<["land_value" := Num (of_Z land)]>
                (<["bldg_value" := Num (of_Z bldg)]>
                (<["garage_sqft" := Num (of_Z garage)]> ∅)))))) ] in
  let df := setitem_const df "price_per_sqft" (Num (of_Z 0)) in
  let df := setitem_const df "total_bathrooms" (Num bathrooms) in
  let df := setitem_const df "age" (Num (of_Z (now_year - year_built))) in
  ratio ← py_truediv land (bldg + 1);
  let df := setitem_const df "land_to_building_ratio" (Num ratio) in
  Ok (setitem_const df "total_sqft" (Num (of_Z (square_footage + garage)))).

Definition predict_single_property (now_year : Z) (bedrooms : Z) (bathrooms : float)
  (square_footage year_built : Z) (land_value bldg_value garage_sqft : option Z)
  : M prediction :=
  property_data ← lift (property_frame now_year bedrooms bathrooms square_footage
                          year_built land_value bldg_value garage_sqft);
  predictions ← predict property_data;
  price ← match predictions with
          | price :: _ => mret price
          | [] => raise IndexError
          end;
  p ← get_self;
  let confidence := confidence_of (training_metrics p) in
  price ← lift (py_int price);
  mret (Prediction price confidence (feature_names p) (model_type p)).




(** Running a method on an instance, with an empty record of calls. *)
Definition run {A} (m : M A) (p : predictor) : result A * world :=
  m (World p []).

End predictor.

End Predictor.

(** * src/api/main.py *)

Module Api.

(** Python truthiness of an optional number: [None] and zero are false. *)
Definition truthy_int (o : option Z) : bool :=
  match o with
  | Some v => negb (bool_decide (v = 0%Z))
  | None => false
  end.

Definition truthy_float (o : option float) : bool :=
  match o with
  | Some (Finite q) => negb (bool_decide (q = 0%Qc))
  | Some _ => true
  | None => false
  end.

(** The columns of a fetched row that the deviation is computed from, and
    the fields of the response that carry it. *)
Record db_row := DbRow {
  sale_price : option Z;
  fair_price : option Z
}.

Record deviation := Deviation {
  price_difference : option Z;
  price_difference_percent : option float
}.

(** [if row.sale_price and row.fair_price: ...], written the same way in
    [search_properties] and in [get_property_details]. *)
Definition price_deviation (r : db_row) : deviation :=
  if truthy_int (sale_price r) && truthy_int (fair_price r)
  then
    match sale_price r, fair_price r with
    | Some sale, Some fair =>
        let difference := (sale - fair)%Z in
        Deviation (Some difference)
                  (Some (fmul (fdiv (of_Z difference) (of_Z fair)) (of_Z 100)))
    | _, _ => Deviation None None
    end
  else Deviation None None.

(** The rows [search_properties] answers with, in the order fetched. *)
Definition search_properties_rows (fetched : list db_row) : list deviation :=
  price_deviation <$> fetched.

(** [get_property_details]: 404 when the row is missing. *)
Definition get_property_details_row (fetched : option db_row) : option deviation :=
  price_deviation <$> fetched.

Record PropertySearchRequest := SearchRequest {
  min_price : option Z;
  max_price : option Z;
  min_bedrooms : option Z;
  max_bedrooms : option Z;
  min_bathrooms : option float;
  max_bathrooms : option float;
  min_sqft : option Z;
  max_sqft : option Z;
  cities : option (list string);
  zip_codes : option (list string);
  limit : Z
}.

(** A bound parameter of the SQL statement. *)
Inductive param :=
| PInt (z : Z)
| PFloat (x : float)
| PStr (s : string).

Record statement := Statement { query : string; params : gmap string param }.

Definition select_from : string := "
        SELECT 
            p.id,
            p.formatted_address as address,
            p.city,
            p.zip_code,
            p.bedrooms,
            p.bathrooms,
            p.square_footage,
            p.year_built,
            p.sale_price,
            p.zestimate,
            fp.fair_price,
            fp.comparable_count
        FROM properties p
        LEFT JOIN fair_prices fp ON p.id = fp.id
        WHERE 1=1
        ".

(** [if value: query += clause; params[name] = value] *)
Definition int_filter (value : option Z) (clause name : string) (st : statement)
  : statement :=
  if truthy_int value
  then Statement (query st +:+ clause)
                 (<[name := PInt (default 0%Z value)]> (params st))
  else st.

Definition float_filter (value : option float) (clause name : string)
  (st : statement) : statement :=
  if truthy_float value
  then Statement (query st +:+ clause)
                 (<[name := PFloat (default NaN value)]> (params st))
  else st.

(** [if values: ... IN (:prefix_0,:prefix_1,...)], one parameter per value. *)
Definition in_filter (values : option (list string)) (column prefix : string)
  (st : statement) : statement :=
  match values with
  | Some (v :: vs) =>
      let names := imap (fun i _ => prefix +:+ pretty i) (v :: vs) in
      let placeholders := String.concat "," ((fun n => ":" +:+ n) <$> names) in
      Statement (query st +:+ " AND " +:+ column +:+ " IN (" +:+ placeholders +:+ ")")
                (foldl (fun ps nv => <[nv.1 := PStr nv.2]> ps) (params st)
                       (zip names (v :: vs)))
  | _ => st
  end.

(** The statement [search_properties] executes for a request. *)
Definition search_statement (request : PropertySearchRequest) : statement :=
  let st := Statement select_from ∅ in
  let st := int_filter (min_price request)
              " AND (p.sale_price >= :min_price OR p.zestimate >= :min_price)"
              "min_price" st in
  let st := int_filter (max_price request)
              " AND (p.sale_price <= :max_price OR p.zestimate <= :max_price)"
              "max_price" st in
  let st := int_filter (min_bedrooms request)
              " AND p.bedrooms >= :min_bedrooms" "min_bedrooms" st in
  let st := int_filter (max_bedrooms request)
              " AND p.bedrooms <= :max_bedrooms" "max_bedrooms" st in
  let st := float_filter (min_bathrooms request)
              " AND p.bathrooms >= :min_bathrooms" "min_bathrooms" st in
  let st := float_filter (max_bathrooms request)
              " AND p.bathrooms <= :max_bathrooms" "max_bathrooms" st in
  let st := int_filter (min_sqft request)
              " AND p.square_footage >= :min_sqft" "min_sqft" st in
  let st := int_filter (max_sqft request)
              " AND p.square_footage <= :max_sqft" "max_sqft" st in
  let st := in_filter (cities request) "p.city" "city_" st in
  let st := in_filter (zip_codes request) "p.zip_code" "zip_" st in
  Statement (query st
             +:+ " ORDER BY p.sale_price DESC NULLS LAST, p.zestimate DESC NULLS LAST"
             +:+ " LIMIT " +:+ pretty (limit request))
            (params st).

(** What the endpoint returns is what the database answers to the statement;
    the database is any function of the statement. *)
Definition search_properties (db : statement -> list db_row)
  (request : PropertySearchRequest) : list deviation :=
  search_properties_rows (db (search_statement request)).

End Api.

(** * Vocabulary of the statements *)

(** Whether the sale price of a row lies in the closed interval. *)
Definition within (lower upper : float) (r : row) : bool :=
  match at_label r "sale_price" with
  | Num x => fle lower x && fle x upper
  | Str _ => false
  end.



(** A postal code gets a record when it is not missing and has five rows. *)
Definition qualifies (df : frame) (zip : cell) : bool :=
  negb (isna zip) && negb (bool_decide (length (Assets.zip_rows df zip) < 5)%nat).

(** The numeric range filters of a search request, what it means for one
    to be supplied with the value zero, and the request without it. *)
Inductive range_filter :=
| MinPrice | MaxPrice | MinBedrooms | MaxBedrooms
| MinBathrooms | MaxBathrooms | MinSqft | MaxSqft.

#[global] Instance range_filter_eq_dec : EqDecision range_filter.
Proof. solve_decision. Defined.

Definition filter_name (f : range_filter) : string :=
  match f with
  | MinPrice => "min_price" | MaxPrice => "max_price"
  | MinBedrooms => "min_bedrooms" | MaxBedrooms => "max_bedrooms"
  | MinBathrooms => "min_bathrooms" | MaxBathrooms => "max_bathrooms"
  | MinSqft => "min_sqft" | MaxSqft => "max_sqft"
  end.

Definition supplied_zero (f : range_filter) (r : Api.PropertySearchRequest) : Prop :=
  match f with
  | MinPrice => Api.min_price r = Some 0%Z
  | MaxPrice => Api.max_price r = Some 0%Z
  | MinBedrooms => Api.min_bedrooms r = Some 0%Z
  | MaxBedrooms => Api.max_bedrooms r = Some 0%Z
  | MinBathrooms => Api.min_bathrooms r = Some (Finite 0%Qc)
  | MaxBathrooms => Api.max_bathrooms r = Some (Finite 0%Qc)
  | MinSqft => Api.min_sqft r = Some 0%Z
  | MaxSqft => Api.max_sqft r = Some 0%Z
  end.

Definition omit (f : range_filter) (r : Api.PropertySearchRequest)
  : Api.PropertySearchRequest :=
  let keep {A} (g : range_filter) (v : option A) : option A :=
    if bool_decide (f = g) then None else v in
  Api.SearchRequest
    (keep MinPrice (Api.min_price r)) (keep MaxPrice (Api.max_price r))
    (keep MinBedrooms (Api.min_bedrooms r)) (keep MaxBedrooms (Api.max_bedrooms r))
    (keep MinBathrooms (Api.min_bathrooms r)) (keep MaxBathrooms (Api.max_bathrooms r))
    (keep MinSqft (Api.min_sqft r)) (keep MaxSqft (Api.max_sqft r))
    (Api.cities r) (Api.zip_codes r) (Api.limit r).


Section trained.
Context {lib : Predictor.Sklearn}.
Import Predictor.

(** What an instance looks like after a successful [train]. *)
Definition trained (p : predictor) (names : list string) (sc : fitted_scaler)
  (m : fitted_estimator) (tm : gmap string float) : predictor :=
  Predictor (model_type p) (Some m) (Some sc) (Some names)
            (match feature_importances_ m with
             | Some importances => Some (zip names importances)
             | None => feature_importance p
             end)
            tm.

End trained.

(** The value of a result that is known to be [Ok]. *)
Definition unwrap {A} (default : A) (r : result A) : A :=
  match r with Ok a => a | Err _ => default end.

(** The listings a call contributes: those of a response with status 200. *)
Definition accepted (r : result Assets.response) : list row :=
  match r with
  | Ok resp =>
      if bool_decide (Assets.status_code resp = 200%Z)
      then Assets.properties resp else []
  | Err _ => []
  end.

(** The postal codes the fetcher queries. *)
Definition queried_codes : list string :=
  ["80301"; "80302"; "80303"; "80304"; "80305"].

Section reading_calls.
Context {lib : Predictor.Sklearn}.

(** A library call that reads fitted state without changing it. *)
Definition read_only (c : Predictor.call) : Prop :=
  match c with
  | Predictor.ScalerTransform _ | Predictor.EstimatorPredict _ => True
  | Predictor.ScalerFit _ | Predictor.EstimatorFit _ _ _ => False
  end.

End reading_calls.

(** The features of the model, in the order [prepare_features] leaves them. *)
Definition trained_features : list string :=
  [ "bedrooms"; "bathrooms"; "square_footage"; "year_built";
    "land_value"; "bldg_value"; "garage_sqft"; "price_per_sqft";
    "total_bathrooms"; "age"; "land_to_building_ratio"; "total_sqft" ].


(** Two search requests of the same shape: the same filters present, as
    many cities and as many postal codes, the same limit. *)
Definition same_shape (a b : Api.PropertySearchRequest) : Prop :=
  Api.truthy_int (Api.min_price a) = Api.truthy_int (Api.min_price b) ∧
  Api.truthy_int (Api.max_price a) = Api.truthy_int (Api.max_price b) ∧
  Api.truthy_int (Api.min_bedrooms a) = Api.truthy_int (Api.min_bedrooms b) ∧
  Api.truthy_int (Api.max_bedrooms a) = Api.truthy_int (Api.max_bedrooms b) ∧
  Api.truthy_float (Api.min_bathrooms a) = Api.truthy_float (Api.min_bathrooms b) ∧
  Api.truthy_float (Api.max_bathrooms a) = Api.truthy_float (Api.max_bathrooms b) ∧
  Api.truthy_int (Api.min_sqft a) = Api.truthy_int (Api.min_sqft b) ∧
  Api.truthy_int (Api.max_sqft a) = Api.truthy_int (Api.max_sqft b) ∧
  length (default [] (Api.cities a)) = length (default [] (Api.cities b)) ∧
  length (default [] (Api.zip_codes a)) = length (default [] (Api.zip_codes b)) ∧
  Api.limit a = Api.limit b.

(** The labels of the training table, in order: the features, the
    engineered columns, the target. *)
Definition training_columns : list string :=
  Assets.features ++
  [ "price_per_sqft"; "total_bathrooms"; "age"; "land_to_building_ratio";
    "sale_price" ].

(** * Sample data *)

Module Samples.

Definition num (z : Z) : cell := Num (of_Z z).

(** One line of the county extract, as the loader hands it over. *)
Definition transaction (parcel : string) (price : cell) (bedrooms : cell)
  (full three_qtr half above bsmt : Z) : row :=
  list_to_map
    [ ("parcel_nb", Str parcel); ("property_address", Str "1 Main St");
      ("city", Str "BOULDER"); ("sale_date", Str "2024-05-01");
      ("sale_price", price); ("bedrooms", bedrooms);
      ("full_baths", num full); ("three_qtr_baths", num three_qtr);
      ("half_baths", num half); ("above_ground_sqft", num above);
      ("finished_bsmt_sqft", num bsmt); ("unfinished_bsmt_sqft", num 0);
      ("garage_sqft", num 400); ("year_built", num 1990);
      ("land_value", num 100000); ("bldg_value", num 200000) ].

(** Five ordinary sales, one far above them, one without a bedroom count. *)
Definition transactions : frame :=
  Frame Assets.boulder_columns
    [ transaction "P1" (num 300000) (num 3) 2 0 1 1500 500;
      transaction "P2" (num 320000) (num 3) 1 1 0 1400 0;
      transaction "P3" (num 340000) (num 4) 2 1 1 1800 600;
      transaction "P4" (num 360000) (num 4) 2 0 0 2000 0;
      transaction "P5" (num 380000) (num 2) 1 0 0 900 0;
      transaction "P6" (num 5000000) (num 6) 4 1 1 5000 1500;
      transaction "P7" (num 330000) (Num NaN) 2 0 0 1600 0 ].

(** One external listing, with the fields of the external schema. *)
Definition listings : frame :=
  Frame ["id"; "zipCode"; "bedrooms"; "bathrooms"; "squareFootage"; "lastSalePrice"]
    [ list_to_map
        [ ("id", Str "R1"); ("zipCode", Str "80301"); ("bedrooms", num 3);
          ("bathrooms", num 2); ("squareFootage", num 1700);
          ("lastSalePrice", num 350000) ] ].



(** A training table of [n] identical rows. *)
Definition training_row : row :=
  list_to_map
    [ ("bedrooms", num 3); ("bathrooms", num 2); ("square_footage", num 1500);
      ("year_built", num 1990); ("land_value", num 100000);
      ("bldg_value", num 200000); ("garage_sqft", num 400);
      ("sale_price", num 300000) ].

Definition training (n : nat) : frame :=
  Frame (Predictor.feature_columns ++ ["sale_price"]) (replicate n training_row).

(** A stand-in for the library: the identity shuffle, a scaler that leaves
    its input as it is, an estimator that answers a constant. *)
#[global] Instance sklearn : Predictor.Sklearn := {|
  Predictor.fitted_scaler := unit;
  Predictor.ndarray := frame;
  Predictor.fitted_estimator := Predictor.estimator_spec;
  Predictor.permutation := fun n => seq 0 n;
  Predictor.permutation_perm := fun n => Permutation_refl (seq 0 n);
  Predictor.scaler_fit := fun _ => ();
  Predictor.scaler_apply := fun _ X => X;
  Predictor.estimator_fit := fun spec _ _ => spec;
  Predictor.estimator_predict := fun _ X =>
    replicate (length (rows (match X with inl Z | inr Z => Z end))) (of_Z 310000);
  Predictor.feature_importances_ := fun m =>
    match m with
    | Predictor.LinearRegression => None
    | _ => Some (replicate 12 (of_Z 0))
    end;
  Predictor.mean_absolute_error := fun _ _ => of_Z 10000;
  Predictor.mean_squared_error := fun _ _ => of_Z 100000000;
  Predictor.r2_score := fun _ _ => Finite (Q2Qc (-3 # 10));
  Predictor.np_sqrt := fun _ => of_Z 10000
|}.

Definition fresh : Predictor.world :=
  Predictor.World (Predictor.init "random_forest") [].

(** The instance after training on fifty rows. *)
Definition after_training : Predictor.world :=
  (Predictor.train 2026 (training 50) fresh).2.

(** Two stand-ins for the orchestration library.  [lenient] takes whatever
    it is handed.  [strict] has a [MetadataValue.int] that takes a built-in
    integer and raises on any other number.  Neither renders numbers. *)
Definition lenient : Assets.Reporting := {|
  Assets.metadata_value := Assets.scalar + string;
  Assets.MetadataValue_int := fun n => Ok (inl n);
  Assets.MetadataValue_text := fun s => Ok (inr s);
  Assets.add_output_metadata := fun _ => Ok tt;
  Assets.py_str := fun c => match c with Str s => s | Num _ => "" end;
  Assets.py_format_grouped := fun _ => ""
|}.

Definition strict : Assets.Reporting := {|
  Assets.metadata_value := Assets.scalar + string;
  Assets.MetadataValue_int := fun n =>
    match n with
    | Assets.PyInt _ => Ok (inl n)
    | Assets.Float64 _ => Err CheckError
    end;
  Assets.MetadataValue_text := fun s => Ok (inr s);
  Assets.add_output_metadata := fun _ => Ok tt;
  Assets.py_str := fun c => match c with Str s => s | Num _ => "" end;
  Assets.py_format_grouped := fun _ => ""
|}.

(** What the Property Merger returns for the sample extract, with and
    without the external listing, when its report is taken. *)
Definition processed : frame :=
  unwrap empty_frame
    (Assets.processed_properties (reporting := lenient) transactions listings).

Definition processed_alone : frame :=
  unwrap empty_frame
    (Assets.processed_properties (reporting := lenient) transactions empty_frame).

(** The prepared features and target of a training table of [n] rows. *)
Definition prepared (n : nat) : frame * list cell :=
  unwrap (empty_frame, []) (Predictor.prepare 2026 (training n)).

(** A prediction asked of the trained instance. *)
Definition answer : result Predictor.prediction * Predictor.world :=
  Predictor.predict_single_property 2026 3 (of_Z 2) 1500 1990 None None None
    after_training.

Definition answered : Predictor.prediction :=
  unwrap (Predictor.Prediction 0 NaN None "") answer.1.

(** A row sold at zero with a fair price, a row whose fair price is zero,
    and a row with both prices. *)
Definition sold_at_zero : Api.db_row := Api.DbRow (Some 0%Z) (Some 250000%Z).
Definition valued_at_zero : Api.db_row := Api.DbRow (Some 300000%Z) (Some 0%Z).
Definition sold_above : Api.db_row := Api.DbRow (Some 300000%Z) (Some 250000%Z).

Definition request_with_zero : Api.PropertySearchRequest :=
  Api.SearchRequest (Some 0%Z) (Some 900000%Z) None None None None None None
                    (Some ["BOULDER"]) None 50.

(** A listing source that answers the first postal code with one listing,
    the second with an error status, the others with nothing; and one whose
    third call raises. *)
Definition listing : row :=
  list_to_map [ ("id", Str "R1"); ("zipCode", Str "80301"); ("zestimate", num 350000) ].

Definition answering (zip : string) : result Assets.response :=
  if bool_decide (zip = "80301") then Ok (Assets.Response 200 [listing])
  else if bool_decide (zip = "80302") then Ok (Assets.Response 404 [listing])
  else Ok (Assets.Response 200 []).

Definition interrupted (zip : string) : result Assets.response :=
  if bool_decide (zip = "80303") then Err (ValueError "connection reset")
  else answering zip.

(** Two searches of the same shape with different values. *)
Definition search_boulder : Api.PropertySearchRequest :=
  Api.SearchRequest (Some 200000%Z) None None None None None None None
                    (Some ["BOULDER"]) None 50.

Definition search_elsewhere : Api.PropertySearchRequest :=
  Api.SearchRequest (Some 900000%Z) None None None None None None None
                    (Some ["x') OR 1=1 --"]) None 50.

(** The row prepared from a training table of one row. *)
Definition prepared_row : row := default ∅ (rows (prepared 1).1 !! 0%nat).

End Samples.

(** * Proofs *)

(** Order on rational constants, by linear arithmetic. *)
Ltac qc_order :=
  unfold Qclt, Qcle in *; cbn [this Q2Qc] in *;
  repeat match goal with
         | |- context [Qred ?x] =>
             let v := eval vm_compute in (Qred x) in change (Qred x) with v
         | H : context [Qred ?x] |- _ =>
             let v := eval vm_compute in (Qred x) in change (Qred x) with v in H
         end;
  lra.

Lemma bind_Ok {A B} (f : A → result B) (m : result A) (b : B) :
  (m ≫= f) = Ok b → ∃ a, m = Ok a ∧ f a = Ok b.
Proof. destruct m; simpl; [eauto | discriminate]. Qed.

Lemma traverse_Ok {A B} (f : A → result B) (l : list A) (ys : list B) :
  traverse f l = Ok ys → Forall2 (fun x y => f x = Ok y) l ys.
Proof.
  revert ys. induction l as [|x l IH]; simpl; intros ys H.
  - injection H as <-. constructor.
  - destruct (f x) eqn:Ex; [| discriminate].
    destruct (traverse f l) eqn:El; [| discriminate].
    injection H as <-. constructor; auto.
Qed.

Lemma select_mask_filter {A} (P : A → bool) (l : list A) (mask : list bool) :
  Forall2 (fun x b => b = P x) l mask →
  select_mask l mask = filter (fun x => P x = true) l.
Proof.
  induction 1 as [|x b l mask Hb _ IH]; [done|].
  simpl. rewrite filter_cons. subst b.
  destruct (P x) eqn:E; rewrite IH.
  - by rewrite decide_True.
  - by rewrite decide_False.
Qed.

Lemma getitem_Ok df c cs :
  getitem df c = Ok cs → c ∈ columns df ∧ cs = (fun r => at_label r c) <$> rows df.
Proof.
  unfold getitem, has_column. case_bool_decide; [|discriminate].
  intros [= <-]. done.
Qed.

Lemma remove_outliers_Ok df out :
  Assets.remove_outliers df = Ok out →
  ∃ lower upper,
    Assets.price_bounds ((fun r => at_label r "sale_price") <$> rows df)
      = Ok (lower, upper) ∧
    columns out = columns df ∧
    rows out = filter (fun r => within lower upper r = true) (rows df).
Proof.
  unfold Assets.remove_outliers. intros H.
  apply bind_Ok in H as (prices & Hp & H).
  apply getitem_Ok in Hp as [_ ->].
  apply bind_Ok in H as ([lower upper] & Hb & H).
  apply bind_Ok in H as (ge & Hge & H).
  apply bind_Ok in H as (le & Hle & H).
  injection H as <-. exists lower, upper. split; [done|]. split; [done|].
  simpl. apply select_mask_filter.
  apply traverse_Ok in Hge, Hle.
  rewrite Forall2_fmap_l in Hge. rewrite Forall2_fmap_l in Hle.
  clear Hb. revert le Hle. induction Hge as [|r g rs ge Hg _ IH]; intros le Hle.
  - inversion Hle. constructor.
  - inversion Hle as [|? l ? le' Hl Hle']; subst. simpl. constructor; [|by apply IH].
    unfold within. simpl in Hg, Hl. destruct (at_label r "sale_price"); simpl in *; [|discriminate].
    by injection Hg as <-; injection Hl as <-.
Qed.

Lemma dropna_Ok df subset out :
  dropna df subset = Ok out →
  columns out = columns df ∧
  rows out = filter (fun r => complete subset r = true) (rows df).
Proof.
  unfold dropna. intros H. apply bind_Ok in H as (? & _ & H).
  injection H as <-. split; reflexivity.
Qed.

Lemma guarded_reraise {A} (a : Assets.asset) (empty : A) (body : result A) :
  Assets.on_exception a = Assets.Reraise → Assets.guarded a empty body = body.
Proof. unfold Assets.guarded. intros ->. by destruct body. Qed.

Lemma flt_not_fle a b : flt a b = true → fle b a = false.
Proof.
  destruct a as [p| | |], b as [q| | |]; simpl; try done.
  rewrite bool_decide_eq_true, bool_decide_eq_false.
  apply Qclt_not_le.
Qed.

Lemma complete_required r :
  complete Assets.required_fields r = true ↔
  isna (at_label r "sale_price") = false ∧
  isna (at_label r "bedrooms") = false ∧
  isna (at_label r "bathrooms") = false.
Proof.
  unfold complete, Assets.required_fields. simpl.
  rewrite !andb_true_iff, !negb_true_iff. tauto.
Qed.

Section asset_facts.
Context {reporting : Assets.Reporting}.

Lemma processed_properties_rows (b r out : frame) :
  Assets.processed_properties b r = Ok out →
  ∃ combined prices,
    Assets.combined_df b r = Ok combined ∧
    let batch := filter (fun row => complete Assets.required_fields row = true)
                        (rows combined) in
    numbers ((fun row => at_label row "sale_price") <$> batch) = Ok prices ∧
    let q1 := fquantile (Q2Qc (1 # 4)) prices in
    let q3 := fquantile (Q2Qc (3 # 4)) prices in
    let iqr := fsub q3 q1 in
    let lower := fsub q1 (fmul (Finite (Q2Qc (3 # 2))) iqr) in
    let upper := fadd q3 (fmul (Finite (Q2Qc (3 # 2))) iqr) in
    rows out = filter (fun row => within lower upper row = true) batch.
Proof.
  unfold Assets.processed_properties. rewrite guarded_reraise by done.
  unfold Assets.processed_properties_body. intros H.
  apply bind_Ok in H as (combined & Hc & H).
  apply bind_Ok in H as (cleaned & Hd & H).
  apply dropna_Ok in Hd as [_ Hrows].
  apply bind_Ok in H as (kept & Hk & H).
  apply bind_Ok in H as (bp & _ & H).
  apply bind_Ok in H as (reported & _ & H). injection H as <-.
  apply remove_outliers_Ok in Hk as (lower & upper & Hb & _ & Hout).
  rewrite Hrows in Hb, Hout.
  unfold Assets.price_bounds in Hb.
  apply bind_Ok in Hb as (prices & Hp & Hb). injection Hb as <- <-.
  exists combined, prices. done.
Qed.

(** C1. Every row the Property Merger returns has a sale price, a bedroom
    count and a bathroom count, and its sale price lies in
    [[Q1 - 1.5*IQR, Q3 + 1.5*IQR]], the quartiles being those of the sale
    prices of the batch once the rows lacking one of the three fields are
    dropped.  A row of the batch whose price is strictly outside the interval
    is not returned; a row with the three fields whose price is inside it is
    returned.  The rows returned are those rows, in their order. *)
Theorem processed_properties_invariant (b r out : frame) :
  Assets.processed_properties b r = Ok out →
  ∃ combined prices,
    Assets.combined_df b r = Ok combined ∧
    let batch := filter (fun row => complete Assets.required_fields row = true)
                        (rows combined) in
    numbers ((fun row => at_label row "sale_price") <$> batch) = Ok prices ∧
    let q1 := fquantile (Q2Qc (1 # 4)) prices in
    let q3 := fquantile (Q2Qc (3 # 4)) prices in
    let iqr := fsub q3 q1 in
    let lower := fsub q1 (fmul (Finite (Q2Qc (3 # 2))) iqr) in
    let upper := fadd q3 (fmul (Finite (Q2Qc (3 # 2))) iqr) in
    rows out = filter (fun row => within lower upper row = true) batch ∧
    (∀ row, row ∈ rows out →
       isna (at_label row "sale_price") = false ∧
       isna (at_label row "bedrooms") = false ∧
       isna (at_label row "bathrooms") = false ∧
       ∃ x, at_label row "sale_price" = Num x ∧
            fle lower x = true ∧ fle x upper = true) ∧
    (∀ row x, row ∈ rows combined →
       at_label row "sale_price" = Num x →
       flt x lower = true ∨ flt upper x = true →
       row ∉ rows out) ∧
    (∀ row, row ∈ rows combined →
       complete Assets.required_fields row = true →
       within lower upper row = true →
       row ∈ rows out).
Proof.
  intros H. apply processed_properties_rows in H
    as (combined & prices & Hc & Hp & Hout).
  exists combined, prices. split; [done|]. split; [done|].
  split; [done|]. rewrite Hout. repeat split.
  - by apply list_elem_of_filter in H as [_ [? _]%list_elem_of_filter%proj1%complete_required].
  - by apply list_elem_of_filter in H as [_ (_ & ? & _)%list_elem_of_filter%proj1%complete_required].
  - by apply list_elem_of_filter in H as [_ (_ & _ & ?)%list_elem_of_filter%proj1%complete_required].
  - apply list_elem_of_filter in H as [Hw _]. unfold within in Hw.
    destruct (at_label row "sale_price") as [x|]; [|done].
    apply andb_true_iff in Hw as [? ?]. eauto.
  - intros row x _ Hx Hout' [Hw _]%list_elem_of_filter.
    unfold within in Hw. rewrite Hx in Hw. apply andb_true_iff in Hw as [H1 H2].
    destruct Hout' as [Ho|Ho]; apply flt_not_fle in Ho.
    + exact (eq_true_false_abs _ H1 Ho).
    + exact (eq_true_false_abs _ H2 Ho).
  - intros row Hin Hc' Hw. apply list_elem_of_filter. split; [done|].
    apply list_elem_of_filter. done.
Qed.



Lemma elem_of_setitem_const_rows df c v r :
  r ∈ rows (setitem_const df c v) → ∃ r0, r0 ∈ rows df ∧ r = <[c := v]> r0.
Proof. simpl. intros (r0 & -> & ?)%list_elem_of_fmap. eauto. Qed.

Lemma at_label_insert_eq (r : row) c v : at_label (<[c := v]> r) c = v.
Proof. unfold at_label. by rewrite lookup_insert_eq. Qed.

Lemma at_label_insert_ne (r : row) c c' v :
  c ≠ c' → at_label (<[c := v]> r) c' = at_label r c'.
Proof. intros. unfold at_label. by rewrite lookup_insert_ne. Qed.


Lemma rename_label_sale_price c :
  rename_label Assets.column_mapping c = "sale_price" → c = "sale_price".
Proof.
  unfold rename_label, Assets.column_mapping. simpl.
  repeat (case_bool_decide; [discriminate|]). done.
Qed.

Lemma rentcast_df_no_sale_price rc r :
  "sale_price" ∉ columns rc →
  r ∈ rows (Assets.rentcast_df rc) →
  at_label r "sale_price" = Num NaN.
Proof.
  intros Hcol. unfold Assets.rentcast_df. simpl.
  intros (r0 & -> & _)%list_elem_of_fmap.
  unfold at_label at 1. rewrite (proj1 (not_elem_of_list_to_map _ _)); [done|].
  rewrite <- list_fmap_compose. intros (c & Hc & Hin)%list_elem_of_fmap.
  simpl in Hc. symmetry in Hc. apply rename_label_sale_price in Hc as ->.
  unfold add_label in Hin. case_bool_decide; [done|].
  apply elem_of_app in Hin as [?|Hin]; [done|].
  by apply list_elem_of_singleton in Hin.
Qed.

Lemma concat_Ok a b out :
  concat a b = Ok out → rows out = rows a ++ rows b.
Proof.
  unfold concat. destruct (_ && _); [|discriminate]. by intros [= <-].
Qed.



(** ** The trend aggregator *)


Lemma unique_NoDup l : NoDup (unique l).
Proof.
  induction l as [|y l IH]; simpl; [constructor|].
  constructor.
  - rewrite list_elem_of_filter. by intros [? _].
  - by apply NoDup_filter.
Qed.

Lemma trends_loop_traverse today df zips :
  Assets.trends_loop today df zips =
  traverse (Assets.trend_of today df) (filter (fun z => qualifies df z = true) zips).
Proof.
  induction zips as [|z zips IH]; simpl; [done|].
  rewrite filter_cons.
  destruct (decide (qualifies df z = true)) as [Hq|Hq]; unfold qualifies in Hq.
  - apply andb_true_iff in Hq as [H1 H2]. apply negb_true_iff in H1, H2.
    rewrite H1, H2. simpl. rewrite IH.
    destruct (Assets.trend_of today df z); simpl; [|done].
    by destruct (traverse _ _).
  - apply not_true_is_false, andb_false_iff in Hq.
    destruct Hq as [Hq|Hq]; apply negb_false_iff in Hq; rewrite Hq; [done|].
    by destruct (isna z).
Qed.



Lemma traverse_fmap_Ok {A B} (f : A → result B) (g : A → B) (l : list A) :
  (∀ x, x ∈ l → f x = Ok (g x)) → traverse f l = Ok (g <$> l).
Proof.
  induction l as [|x l IH]; intros H; simpl; [done|].
  rewrite H by (apply elem_of_cons; by left).
  rewrite IH; [done|]. intros y Hy. apply H. apply elem_of_cons. by right.
Qed.



Lemma numbers_numeric (cs : list cell) :
  (∀ c, c ∈ cs → ∃ x, c = Num x) → ∃ xs, numbers cs = Ok xs.
Proof.
  intros H. unfold numbers.
  rewrite (traverse_fmap_Ok as_float (fun c => match c with Num x => x | _ => NaN end)).
  - simpl. eauto.
  - intros c [x ->]%H. done.
Qed.









Section keyed.
Context {K A : Type} `{EqDecision K} (R : K → A → Prop) (key : A → K).
Hypothesis R_key : ∀ k a, R k a → key a = k.


End keyed.




End asset_facts.

(** ** Feature preparation *)

Lemma traverse_length {A B} (f : A → result B) (l : list A) (ys : list B) :
  traverse f l = Ok ys → length ys = length l.
Proof. intros H%traverse_Ok. symmetry. by eapply Forall2_length. Qed.

Lemma getitem_length df c cs : getitem df c = Ok cs → length cs = length (rows df).
Proof. intros [_ ->]%getitem_Ok. by rewrite length_fmap. Qed.

Lemma column_op_length f a b cs :
  column_op f a b = Ok cs → length a = length b → length cs = length a.
Proof.
  unfold column_op. intros H%traverse_length Hab.
  rewrite H, length_zip_with. lia.
Qed.

Lemma setitem_length df c vals :
  length vals = length (rows df) → length (rows (setitem df c vals)) = length (rows df).
Proof. intros H. simpl. rewrite length_zip_with. lia. Qed.

Lemma select_mask_length {A B} (l : list A) (k : list B) (mask : list bool) :
  length l = length k → length (select_mask l mask) = length (select_mask k mask).
Proof.
  revert k mask. induction l as [|x l IH]; intros [|y k] mask Hlen; try done.
  destruct mask as [|[] mask]; simpl; [done| |]; simpl in Hlen; rewrite (IH k); auto.
Qed.

Lemma select_mask_notna (y : list cell) :
  select_mask y ((fun c => negb (isna c)) <$> y) = filter (fun c => isna c = false) y.
Proof.
  induction y as [|c y IH]; [done|]. rewrite fmap_cons.
  destruct (isna c) eqn:E.
  - rewrite filter_cons_False by (by rewrite E). simpl. exact IH.
  - rewrite filter_cons_True by exact E. simpl. by rewrite IH.
Qed.

Lemma column_op_div_numeric (a b cs : list cell) :
  column_op cell_div a b = Ok cs → length a = length b →
  ∀ c, c ∈ a → ∃ x, c = Num x.
Proof.
  unfold column_op. intros H%traverse_Ok. revert b cs H.
  induction a as [|c a IH]; intros [|d b] cs H Hlen; try done.
  - intros c' Hc'. by apply elem_of_nil in Hc'.
  - simpl in H. inversion H as [|? r ? rs Hr Hrest]; subst.
    intros c' [->|Hc']%elem_of_cons.
    + simpl in Hr. destruct c; [by eexists|discriminate].
    + eapply IH; [exact Hrest| simpl in Hlen; lia | done].
Qed.

Lemma fillna_median_rows df out :
  fillna_median df = Ok out → length (rows out) = length (rows df).
Proof.
  unfold fillna_median. intros H. apply bind_Ok in H as (? & _ & H).
  injection H as <-. simpl. by rewrite length_fmap.
Qed.

Lemma select_rows df cols out :
  select df cols = Ok out → length (rows out) = length (rows df).
Proof.
  unfold select. intros H. apply bind_Ok in H as (? & _ & H).
  injection H as <-. simpl. by rewrite length_fmap.
Qed.

Lemma prepare_Ok now data X y :
  Predictor.prepare now data = Ok (X, y) →
  y = filter (fun c => isna c = false)
             ((fun r => at_label r "sale_price") <$> rows data) ∧
  length (rows X) = length y ∧
  (∀ c, c ∈ y → ∃ x, c = Num x).
Proof.
  unfold Predictor.prepare. intros H.
  apply bind_Ok in H as (X0 & HX0%select_rows & H).
  apply bind_Ok in H as (y0 & Hy0 & H).
  apply bind_Ok in H as (X1 & HX1%fillna_median_rows & H).
  cbv zeta in H.
  set (mask := (fun c => negb (isna c)) <$> y0) in H.
  set (X2 := where_ X1 mask) in H.
  set (y1 := select_mask y0 mask) in H.
  assert (Hlen : length (rows X2) = length y1).
  { unfold X2, y1. simpl. apply select_mask_length.
    rewrite HX1, HX0. symmetry. by eapply getitem_length. }
  apply bind_Ok in H as (area & Harea%getitem_length & H).
  apply bind_Ok in H as (pps & Hpps & H).
  assert (Hnum : ∀ c, c ∈ y1 → ∃ x, c = Num x).
  { eapply column_op_div_numeric; [exact Hpps|]. by rewrite Harea. }
  apply column_op_length in Hpps; [|by rewrite Harea].
  set (X3 := setitem X2 _ pps) in H.
  assert (H3 : length (rows X3) = length y1).
  { unfold X3. rewrite setitem_length; [done|]. by rewrite Hpps. }
  apply bind_Ok in H as (baths & Hbaths%getitem_length & H).
  set (X4 := setitem X3 _ baths) in H.
  assert (H4 : length (rows X4) = length y1).
  { unfold X4. rewrite setitem_length; [done|]. by rewrite Hbaths. }
  apply bind_Ok in H as (built & Hbuilt%getitem_length & H).
  apply bind_Ok in H as (age & Hage%traverse_length & H).
  set (X5 := setitem X4 _ age) in H.
  assert (H5 : length (rows X5) = length y1).
  { unfold X5. rewrite setitem_length; [done|]. by rewrite Hage, Hbuilt. }
  apply bind_Ok in H as (land & Hland%getitem_length & H).
  apply bind_Ok in H as (bldg & Hbldg%getitem_length & H).
  apply bind_Ok in H as (bldg1 & Hbldg1%traverse_length & H).
  apply bind_Ok in H as (ratio & Hratio & H).
  apply column_op_length in Hratio; [|by rewrite Hbldg1, Hbldg, Hland].
  set (X6 := setitem X5 _ ratio) in H.
  assert (H6 : length (rows X6) = length y1).
  { unfold X6. rewrite setitem_length; [done|]. by rewrite Hratio, Hland. }
  apply bind_Ok in H as (area' & Harea'%getitem_length & H).
  apply bind_Ok in H as (garage & Hgarage%getitem_length & H).
  apply bind_Ok in H as (total & Htotal & H).
  apply column_op_length in Htotal; [|by rewrite Harea', Hgarage].
  injection H as <- <-.
  apply getitem_Ok in Hy0 as [_ ->].
  split; [apply select_mask_notna|]. split; [|done].
  rewrite setitem_length; [done|]. by rewrite Htotal, Harea'.
Qed.

(** ** Training and prediction *)

Section predictor_facts.
Context {lib : Predictor.Sklearn}.
Import Predictor.
#[local] Arguments train_test_split : simpl never.

Lemma take_rows_subset {A} (idx : list nat) (l : list A) (x : A) :
  x ∈ take_rows idx l → x ∈ l.
Proof.
  unfold take_rows. intros (i & _ & Hi)%list_elem_of_omap.
  by eapply list_elem_of_lookup_2.
Qed.

Lemma mape_total (y_test : list cell) (y_pred : list float) :
  (∀ c, c ∈ y_test → ∃ x, c = Num x) → ∃ v, mape y_test y_pred = Ok v.
Proof.
  intros Hnum. unfold mape.
  rewrite (traverse_fmap_Ok _
             (fun p => match p.1 with
                       | Num x => Num (fabs (fdiv (fsub x p.2) x))
                       | Str _ => Num NaN
                       end)).
  - simpl.
    destruct (numbers_numeric
                ((fun p : cell * float =>
                    match p.1 with
                    | Num x => Num (fabs (fdiv (fsub x p.2) x))
                    | Str _ => Num NaN
                    end) <$> zip y_test y_pred)) as [xs ->]; [|by eexists].
    intros c ([c' x] & -> & _)%list_elem_of_fmap. simpl. destruct c'; by eexists.
  - intros [c x] Hin. apply elem_of_zip_l, Hnum in Hin as [x' ->]. done.
Qed.

Lemma train_insufficient now data p cs X y :
  prepare now data = Ok (X, y) →
  (length (rows X) < 50)%nat →
  train now data (World p cs)
  = (Err (insufficient_data (length (rows X))),
     World (set_feature_names (columns X) p) cs).
Proof.
  intros Hprep Hlt. unfold train, prepare_features, mbind, M_bind, bind, lift.
  rewrite Hprep. simpl. by rewrite bool_decide_eq_true_2.
Qed.

Lemma train_sufficient now data p cs X y spec :
  prepare now data = Ok (X, y) →
  (50 ≤ length (rows X))%nat →
  new_estimator (model_type p) = Ok spec →
  let '(X_train, X_test, y_train, y_test) := train_test_split X y in
  let sc := scaler_fit X_train in
  let feed (Z : frame) : frame + ndarray :=
    if bool_decide (model_type p = "linear") then inr (scaler_apply sc Z) else inl Z in
  let m := estimator_fit spec (feed X_train) y_train in
  let y_pred := estimator_predict m (feed X_test) in
  ∃ mape_value,
    mape y_test y_pred = Ok mape_value ∧
    let tm := metrics_dict (mean_absolute_error y_test y_pred)
                (mean_squared_error y_test y_pred)
                (np_sqrt (mean_squared_error y_test y_pred))
                (r2_score y_test y_pred) mape_value
                (length (rows X_train)) (length (rows X_test))
                (length (columns X)) in
    train now data (World p cs)
    = (Ok tm,
       World (trained p (columns X) sc m tm)
             (cs ++ [ScalerFit X_train; ScalerTransform X_train;
                     ScalerTransform X_test;
                     EstimatorFit spec (feed X_train) y_train;
                     EstimatorPredict (feed X_test)])).
Proof.
  intros Hprep Hge Hspec. unfold train_test_split. cbv zeta.
  set (X_train := Frame (columns X) (take_rows (drop _ _) (rows X))).
  set (X_test := Frame (columns X) (take_rows (take _ _) (rows X))).
  set (y_train := take_rows (drop _ _) y).
  set (y_test := take_rows (take _ _) y).
  set (feed := fun Z : frame =>
                 if bool_decide (model_type p = "linear")
                 then inr (scaler_apply (scaler_fit X_train) Z) else inl Z).
  destruct (mape_total y_test
              (estimator_predict (estimator_fit spec (feed X_train) y_train)
                                 (feed X_test))) as [v Hv].
  { intros c Hc. apply prepare_Ok in Hprep as (_ & _ & Hnum). apply Hnum.
    by eapply take_rows_subset. }
  exists v. split; [done|].
  unfold train, prepare_features, mbind, M_bind, bind, lift.
  rewrite Hprep. simpl. rewrite bool_decide_eq_false_2 by lia.
  unfold train_test_split. fold X_train X_test y_train y_test.
  simpl. rewrite Hspec. unfold feed in *.
  destruct (bool_decide (model_type p = "linear")) eqn:Hlin; simpl;
    rewrite Hv; simpl; unfold trained;
    destruct (feature_importances_ _) eqn:Hfi; simpl; rewrite <- !app_assoc; done.
Qed.

Lemma take_rows_length {A} (idx : list nat) (l : list A) :
  Forall (fun i => (i < length l)%nat) idx → length (take_rows idx l) = length idx.
Proof.
  unfold take_rows. induction 1 as [|i idx Hi _ IH]; [done|].
  simpl. destruct (lookup_lt_is_Some_2 l i Hi) as [x ->]. simpl. f_equal. exact IH.
Qed.

Lemma permutation_bound n : Forall (fun i => (i < n)%nat) (permutation n).
Proof.
  rewrite (permutation_perm n). apply Forall_forall.
  intros i Hi%elem_of_seq. lia.
Qed.

Lemma split_sizes (X : frame) (y : list cell) :
  let '(X_train, X_test, _, _) := train_test_split X y in
  length (rows X_train) = (length (rows X) - n_test (length (rows X)))%nat ∧
  length (rows X_test) = n_test (length (rows X)).
Proof.
  unfold train_test_split. simpl.
  assert (Hlen : length (permutation (length (rows X))) = length (rows X))
    by (by rewrite (permutation_perm _), length_seq).
  assert (Hk : (n_test (length (rows X)) ≤ length (rows X))%nat).
  { unfold n_test. destruct (length (rows X)) as [|n]; [done|].
    apply Nat.Div0.div_le_upper_bound. lia. }
  split.
  - rewrite take_rows_length.
    + rewrite length_drop. lia.
    + apply Forall_drop, permutation_bound.
  - rewrite take_rows_length.
    + rewrite length_take. lia.
    + apply Forall_take, permutation_bound.
Qed.

Lemma predict_run p cs property_data m sc names X :
  model p = Some m → scaler p = Some sc → feature_names p = Some names →
  (select property_data names ≫= fillna_median) = Ok X →
  let feed (Z : frame) : frame + ndarray :=
    if bool_decide (model_type p = "linear") then inr (scaler_apply sc Z) else inl Z in
  predict property_data (World p cs)
  = (Ok (estimator_predict m (feed X)),
     World p (cs ++ [ScalerTransform X; EstimatorPredict (feed X)])).
Proof.
  intros Hm Hsc Hn HX. apply bind_Ok in HX as (X0 & HX0 & HX).
  unfold predict, scaler_transform, model_predict, mbind, M_bind, bind, lift,
    get_self, record_call, mret, M_ret, ret.
  simpl. rewrite Hm, Hn. simpl. rewrite HX0. simpl. rewrite HX. simpl.
  rewrite Hsc. simpl.
  destruct (bool_decide (model_type p = "linear")); simpl; rewrite Hm; simpl;
    rewrite <- app_assoc; by destruct p.
Qed.

Lemma predict_untrained p cs property_data :
  model p = None → predict property_data (World p cs) = (Err not_trained, World p cs).
Proof.
  intros Hm. unfold predict, mbind, M_bind, bind, get_self. simpl. by rewrite Hm.
Qed.

Lemma predict_self property_data w r w' :
  predict property_data w = (r, w') → self w' = self w.
Proof.
  unfold predict, scaler_transform, model_predict, mbind, M_bind, bind, lift,
    get_self, record_call, mret, M_ret, ret, raise.
  simpl. destruct (model (self w)) eqn:Hm; [|by intros [= _ <-]].
  destruct (feature_names (self w)); [|by intros [= _ <-]].
  simpl. destruct (select _ _); simpl; [|by intros [= _ <-]].
  destruct (fillna_median _); simpl; [|by intros [= _ <-]].
  destruct (scaler (self w)); simpl; [|by intros [= _ <-]].
  destruct (bool_decide _); simpl; rewrite Hm; by intros [= _ <-].
Qed.

Lemma predict_single_confidence now bedrooms bathrooms square_footage year_built
  land_value bldg_value garage_sqft w res w' :
  predict_single_property now bedrooms bathrooms square_footage year_built
    land_value bldg_value garage_sqft w = (Ok res, w') →
  confidence res = confidence_of (training_metrics (self w)).
Proof.
  unfold predict_single_property, mbind, M_bind, bind, lift.
  destruct (property_frame _ _ _ _ _ _ _ _) as [pd|]; [|discriminate].
  destruct (predict pd w) as [[ps|] w1] eqn:Hp; [|discriminate].
  apply predict_self in Hp.
  destruct ps as [|price ps]; [discriminate|]. simpl.
  destruct (py_int price); simpl; [|discriminate].
  intros [= <- _]. simpl. by rewrite Hp.
Qed.

End predictor_facts.

Lemma confidence_of_bounds (tm : gmap string float) :
  fle (Finite (Q2Qc (1 # 2))) (Predictor.confidence_of tm) = true ∧
  fle (Predictor.confidence_of tm) (Finite (Q2Qc (95 # 100))) = true.
Proof.
  unfold Predictor.confidence_of, Predictor.py_max, Predictor.py_min,
    Predictor.f0_95, Predictor.f0_7, Assets.f0_5.
  destruct (default _ (tm !! "r2")) as [q| | |]; simpl;
    repeat (case_bool_decide; simpl); split;
    first [done | apply bool_decide_eq_true; qc_order | exfalso; qc_order].
Qed.

Lemma confidence_of_clamp (tm : gmap string float) (r2 : float) :
  tm !! "r2" = Some r2 →
  (flt r2 (Finite (Q2Qc (1 # 2))) = true →
     Predictor.confidence_of tm = Finite (Q2Qc (1 # 2))) ∧
  (flt (Finite (Q2Qc (95 # 100))) r2 = true →
     Predictor.confidence_of tm = Finite (Q2Qc (95 # 100))) ∧
  (fle (Finite (Q2Qc (1 # 2))) r2 = true →
   fle r2 (Finite (Q2Qc (95 # 100))) = true →
     Predictor.confidence_of tm = r2).
Proof.
  intros Hr. unfold Predictor.confidence_of, Predictor.py_max, Predictor.py_min,
    Predictor.f0_95, Predictor.f0_7, Assets.f0_5. rewrite Hr. simpl.
  destruct r2 as [q| | |]; simpl; repeat split; try done; intros;
    repeat (case_bool_decide; simpl); try done;
    first [ exfalso; qc_order
          | f_equal; apply Qc_is_canon; qc_order ].
Qed.

Section predictor_claims.
Context {lib : Predictor.Sklearn}.
Import Predictor.

(** C3. The rows left by feature preparation are the rows of the input that
    have a sale price.  With fewer than 50 of them [train] raises the
    insufficient-data error: no library call is made, and the model and the
    scaler of the instance are what they were.  With exactly 50 of them, and
    one of the three estimator kinds, [train] returns its metrics and leaves
    a fitted model. *)
Theorem train_needs_fifty_rows (now : Z) (data : frame) (p : predictor)
  (cs : list call) (X : frame) (y : list cell) :
  prepare now data = Ok (X, y) →
  length (rows X)
  = length (filter (fun c => isna c = false)
                   ((fun r => at_label r "sale_price") <$> rows data)) ∧
  ((length (rows X) < 50)%nat →
     ∃ w, train now data (World p cs)
          = (Err (insufficient_data (length (rows X))), w) ∧
          model (self w) = model p ∧
          scaler (self w) = scaler p ∧
          calls w = cs) ∧
  (length (rows X) = 50%nat →
   is_ok (new_estimator (model_type p)) = true →
     ∃ metrics w, train now data (World p cs) = (Ok metrics, w) ∧
                  is_Some (model (self w)) ∧
                  training_metrics (self w) = metrics).
Proof.
  intros Hprep. split; [|split].
  - apply prepare_Ok in Hprep as (<- & -> & _). done.
  - intros Hlt. eexists. split; [by apply (train_insufficient now data p cs X y)|]. done.
  - intros H50 Hkind.
    destruct (new_estimator (model_type p)) as [spec|] eqn:Hspec; [|done].
    pose proof (train_sufficient now data p cs X y spec Hprep) as Hrun.
    destruct (train_test_split X y) as [[[X_train X_test] y_train] y_test].
    destruct Hrun as (v & _ & ->); [lia|done|].
    eexists _, _. split; [done|]. split; [by eexists|done].
Qed.

(** C4. In [train] the scaler is fitted once, on the train subset (all rows
    but the [ceil(0.2 n)] test rows), and applied to the train and to the
    test subset, whatever the estimator; the linear estimator is fitted on
    and predicts from the scaled subsets, the two tree ensembles from the
    unscaled ones.  In [predict], on any instance with a model, a scaler and
    feature names, the scaler is applied to the selected features, and the
    model predicts from the scaled features exactly when the estimator kind
    is linear. *)
Theorem scaling_feeds_linear_only (now : Z) (data : frame) (p : predictor)
  (cs : list call) (X : frame) (y : list cell) (spec : estimator_spec) :
  prepare now data = Ok (X, y) →
  (50 ≤ length (rows X))%nat →
  new_estimator (model_type p) = Ok spec →
  let '(X_train, X_test, y_train, y_test) := train_test_split X y in
  let sc := scaler_fit X_train in
  let feed (q : predictor) (s : fitted_scaler) (Z : frame) : frame + ndarray :=
    if bool_decide (model_type q = "linear") then inr (scaler_apply s Z) else inl Z in
  length (rows X_train) = (length (rows X) - n_test (length (rows X)))%nat ∧
  length (rows X_test) = n_test (length (rows X)) ∧
  (∃ metrics w,
     train now data (World p cs) = (Ok metrics, w) ∧
     scaler (self w) = Some sc ∧
     model (self w) = Some (estimator_fit spec (feed p sc X_train) y_train) ∧
     calls w = cs ++ [ScalerFit X_train; ScalerTransform X_train;
                      ScalerTransform X_test;
                      EstimatorFit spec (feed p sc X_train) y_train;
                      EstimatorPredict (feed p sc X_test)]) ∧
  (∀ (q : predictor) (cs' : list call) (property_data Z : frame)
     (m : fitted_estimator) (s : fitted_scaler) (names : list string),
     model q = Some m → scaler q = Some s → feature_names q = Some names →
     (select property_data names ≫= fillna_median) = Ok Z →
     predict property_data (World q cs')
     = (Ok (estimator_predict m (feed q s Z)),
        World q (cs' ++ [ScalerTransform Z; EstimatorPredict (feed q s Z)]))).
Proof.
  intros Hprep Hge Hspec.
  pose proof (train_sufficient now data p cs X y spec Hprep Hge Hspec) as Hrun.
  pose proof (split_sizes X y) as Hsizes.
  destruct (train_test_split X y) as [[[X_train X_test] y_train] y_test].
  destruct Hrun as (v & _ & Hrun). destruct Hsizes as [Htrain Htest].
  cbv zeta. split; [done|]. split; [done|]. split.
  - eexists _, _. split; [exact Hrun|]. done.
  - intros q cs' property_data Z m s names Hm Hs Hn HZ.
    by apply (predict_run q cs' property_data m s names Z).
Qed.

(** C5. Whenever [predict_single_property] returns, the confidence it
    returns is the stored coefficient of determination clamped into
    [[0.5, 0.95]]: 0.5 for a score below 0.5 (negative or not), 0.95 for a
    score above 0.95, and the score itself in between. *)
Theorem confidence_is_clamped_r2 (now bedrooms : Z) (bathrooms : float)
  (square_footage year_built : Z) (land_value bldg_value garage_sqft : option Z)
  (w w' : world) (res : prediction) (r2 : float) :
  training_metrics (self w) !! "r2" = Some r2 →
  predict_single_property now bedrooms bathrooms square_footage year_built
    land_value bldg_value garage_sqft w = (Ok res, w') →
  fle (Finite (Q2Qc (1 # 2))) (confidence res) = true ∧
  fle (confidence res) (Finite (Q2Qc (95 # 100))) = true ∧
  (flt r2 (Finite (Q2Qc (1 # 2))) = true →
     confidence res = Finite (Q2Qc (1 # 2))) ∧
  (flt (Finite (Q2Qc (95 # 100))) r2 = true →
     confidence res = Finite (Q2Qc (95 # 100))) ∧
  (fle (Finite (Q2Qc (1 # 2))) r2 = true →
   fle r2 (Finite (Q2Qc (95 # 100))) = true →
     confidence res = r2).
Proof.
  intros Hr2 Hrun. apply predict_single_confidence in Hrun. rewrite Hrun.
  destruct (confidence_of_bounds (training_metrics (self w))) as [Hlo Hhi].
  destruct (confidence_of_clamp _ _ Hr2) as (Hbelow & Habove & Hin).
  repeat split; assumption.
Qed.

(** C8. On an instance without a model (never trained, nothing loaded)
    [predict] raises the must-be-trained error, and
    [predict_single_property] raises too: that error, or the division error
    of its own feature computation; neither returns a prediction and neither
    changes the instance. *)
Theorem prediction_requires_model (p : predictor) (cs : list call) :
  model p = None →
  (∀ property_data,
     predict property_data (World p cs) = (Err not_trained, World p cs)) ∧
  (∀ now bedrooms bathrooms square_footage year_built
     land_value bldg_value garage_sqft,
     predict_single_property now bedrooms bathrooms square_footage year_built
       land_value bldg_value garage_sqft (World p cs)
     = (Err (if bool_decide (default 0 bldg_value + 1 = 0)%Z
             then ZeroDivisionError else not_trained),
        World p cs)).
Proof.
  intros Hm. split.
  - intros property_data. by apply predict_untrained.
  - intros. unfold predict_single_property, property_frame, py_truediv,
      mbind, M_bind, bind, lift.
    case_bool_decide; simpl; [done|].
    by rewrite predict_untrained.
Qed.

End predictor_claims.

(** ** The query API *)

Lemma in_filter_params values column prefix st (k : string) c rest :
  prefix = String c rest →
  (∀ rest', k ≠ String c rest') →
  Api.params (Api.in_filter values column prefix st) !! k = Api.params st !! k.
Proof.
  intros -> Hk. unfold Api.in_filter.
  destruct values as [[|v vs]|]; [done| |done].
  cbn [Api.params].
  generalize (v :: vs) at 1 2. intros l.
  generalize (Api.params st).
  assert (Hnames : ∀ n, n ∈ imap (fun i (_ : string) => String c rest +:+ pretty i) l
                        → k ≠ n).
  { intros n (i & x & -> & _)%elem_of_lookup_imap. apply Hk. }
  revert Hnames. generalize (imap (fun i (_ : string) => String c rest +:+ pretty i) l).
  intros names. revert l. induction names as [|n names IH]; intros l Hn ps; [done|].
  destruct l as [|x l]; [done|]. simpl. rewrite (IH l).
  - rewrite lookup_insert_ne; [done|]. apply not_eq_sym, Hn, elem_of_cons. by left.
  - intros n' Hn'. apply Hn, elem_of_cons. by right.
Qed.

Lemma int_filter_params value clause name st (k : string) :
  k ≠ name →
  Api.params (Api.int_filter value clause name st) !! k = Api.params st !! k.
Proof.
  intros Hk. unfold Api.int_filter. destruct (Api.truthy_int value); [|done].
  simpl. by rewrite lookup_insert_ne.
Qed.

Lemma float_filter_params value clause name st (k : string) :
  k ≠ name →
  Api.params (Api.float_filter value clause name st) !! k = Api.params st !! k.
Proof.
  intros Hk. unfold Api.float_filter. destruct (Api.truthy_float value); [|done].
  simpl. by rewrite lookup_insert_ne.
Qed.

Lemma int_filter_falsy value clause name st :
  Api.truthy_int value = false → Api.int_filter value clause name st = st.
Proof. unfold Api.int_filter. by intros ->. Qed.

Lemma float_filter_falsy value clause name st :
  Api.truthy_float value = false → Api.float_filter value clause name st = st.
Proof. unfold Api.float_filter. by intros ->. Qed.

(** C10. A numeric range filter supplied with the value zero adds nothing
    to the statement: no parameter of its name is bound, and the statement,
    hence the rows any database answers with, is the one of the request
    without that filter. *)
Theorem zero_filter_is_absent (f : range_filter) (r : Api.PropertySearchRequest) :
  supplied_zero f r →
  Api.search_statement r = Api.search_statement (omit f r) ∧
  Api.params (Api.search_statement r) !! filter_name f = None ∧
  ∀ db, Api.search_properties db r = Api.search_properties db (omit f r).
Proof.
  intros Hzero.
  assert (Heq : Api.search_statement r = Api.search_statement (omit f r)).
  { destruct r; destruct f; simpl in Hzero; subst; reflexivity. }
  split; [exact Heq|]. split.
  - unfold Api.search_statement. cbn [Api.params].
    rewrite (in_filter_params _ _ "zip_" _ _ _ "ip_")
      by (done || (intros; destruct f; discriminate)).
    rewrite (in_filter_params _ _ "city_" _ _ _ "ity_")
      by (done || (intros; destruct f; discriminate)).
    destruct f; simpl in Hzero;
      repeat first
        [ rewrite int_filter_params by done
        | rewrite float_filter_params by done
        | rewrite int_filter_falsy by (by rewrite Hzero)
        | rewrite float_filter_falsy by (by rewrite Hzero) ];
      done.
  - intros db. unfold Api.search_properties. by rewrite Heq.
Qed.

Lemma truthy_int_Some (z : Z) : Api.truthy_int (Some z) = true ↔ z ≠ 0%Z.
Proof.
  unfold Api.truthy_int. rewrite negb_true_iff, bool_decide_eq_false. done.
Qed.

(** C7, as amended.  In both endpoints the deviation of a row is computed
    exactly when the sale price and the fair price are both present and both
    different from zero; it is then the difference and its percentage of the
    fair price.  In every other case, a price of zero included, both fields
    are null. *)
Theorem deviation_needs_nonzero_prices (r : Api.db_row) :
  let d := Api.price_deviation r in
  (∀ fetched i, fetched !! i = Some r →
     Api.search_properties_rows fetched !! i = Some d) ∧
  Api.get_property_details_row (Some r) = Some d ∧
  (∀ sale fair,
     Api.sale_price r = Some sale → Api.fair_price r = Some fair →
     sale ≠ 0%Z → fair ≠ 0%Z →
     Api.price_difference d = Some (sale - fair)%Z ∧
     Api.price_difference_percent d
     = Some (Finite (Qc_of_Z (sale - fair) / Qc_of_Z fair * Qc_of_Z 100)%Qc)) ∧
  (Api.sale_price r = None ∨ Api.fair_price r = None ∨
   Api.sale_price r = Some 0%Z ∨ Api.fair_price r = Some 0%Z →
     Api.price_difference d = None ∧ Api.price_difference_percent d = None).
Proof.
  cbv zeta. split; [|split; [|split]].
  - intros fetched i Hi. unfold Api.search_properties_rows.
    by rewrite list_lookup_fmap, Hi.
  - done.
  - intros sale fair Hs Hf Hs0 Hf0. unfold Api.price_deviation.
    rewrite Hs, Hf.
    rewrite (proj2 (truthy_int_Some sale) Hs0), (proj2 (truthy_int_Some fair) Hf0).
    simpl. split; [done|]. unfold of_Z, fdiv.
    rewrite bool_decide_eq_false_2; [done|].
    rewrite <- Z2Qc_inj_0. by intros ?%Z2Qc_inj.
  - unfold Api.price_deviation.
    intros [H|[H|[H|H]]]; rewrite H; simpl;
      try done; destruct (Api.truthy_int _); try done;
      by destruct (Api.sale_price r).
Qed.

(** ** Failures inside the assets *)

Section asset_failures.
Context {reporting : Assets.Reporting}.

(** C6, as amended.  A failure inside the Property Merger reaches the
    caller unchanged, as does one inside the Transaction Loader, the
    database connection or the database load.  A failure inside the Market
    Trend Aggregator or inside the training-data asset never does: the asset
    returns an empty table instead, and so does the External Listings
    Fetcher, which never raises. *)
Theorem failures_reraised_or_emptied :
  (∀ b r e, Assets.processed_properties_body b r = Err e →
            Assets.processed_properties b r = Err e) ∧
  (∀ today df e, Assets.market_trends_body today df = Err e →
                 Assets.market_trends today df = Ok []) ∧
  (∀ now df e, Assets.ml_training_data_body now df = Err e →
               Assets.ml_training_data now df = Ok empty_frame) ∧
  (∀ api_key get, ∃ df, Assets.rentcast_properties api_key get = Ok df) ∧
  (∀ (A : Type) (empty : A) (e : exn) (a : Assets.asset),
     Assets.guarded a empty (Err e)
     = match a with
       | Assets.BoulderCountyTransactions | Assets.ProcessedProperties
       | Assets.DatabaseConnection | Assets.LoadToDatabase => Err e
       | Assets.RentcastProperties | Assets.MarketTrends
       | Assets.MlTrainingData => Ok empty
       end).
Proof.
  split; [|split; [|split; [|split]]].
  - intros b r e H. unfold Assets.processed_properties. by rewrite H.
  - intros today df e H. unfold Assets.market_trends. by rewrite H.
  - intros now df e H. unfold Assets.ml_training_data. by rewrite H.
  - intros api_key get. unfold Assets.rentcast_properties.
    destruct api_key as [[|c key]|]; [by eexists| |by eexists].
    destruct (Assets.rentcast_properties_body get); by eexists.
  - intros A empty e a. by destruct a.
Qed.

End asset_failures.

(** * The embedding on small inputs *)

(** Quartiles interpolate linearly, as pandas does: 1.75 and 3.25 for
    [1, 2, 3, 4]. *)
Example quartiles_of_four :
  let xs := of_Z <$> [1; 2; 3; 4]%Z in
  fle (fquantile (Q2Qc (1 # 4)) xs) (Finite (Q2Qc (7 # 4))) = true ∧
  fle (Finite (Q2Qc (7 # 4))) (fquantile (Q2Qc (1 # 4)) xs) = true ∧
  fle (fquantile (Q2Qc (3 # 4)) xs) (Finite (Q2Qc (13 # 4))) = true ∧
  fle (Finite (Q2Qc (13 # 4))) (fquantile (Q2Qc (3 # 4)) xs) = true.
Proof. repeat split; vm_compute; reflexivity. Qed.

(** [int] drops the fraction: a mean of 1.6 becomes 1, a mean of -1.6
    becomes -1; the median of an even sample is the mean of the middle two. *)
Example int_of_mean_truncates :
  py_int (fmean (of_Z <$> [1; 1; 1; 1; 4]%Z)) = Ok 1%Z ∧
  py_int (fmean (of_Z <$> [-1; -1; -1; -1; -4]%Z)) = Ok (-1)%Z ∧
  py_int (fmedian (of_Z <$> [1; 2; 4; 10]%Z)) = Ok 3%Z ∧
  py_int (fdiv (of_Z 1) (of_Z 0)) = Err OverflowError.
Proof. repeat split; vm_compute; reflexivity. Qed.

(** The sample extract: the far sale and the row without bedrooms are
    dropped, and so is the external listing. *)
Example processed_sample_ids :
  (fun r => at_label r "id") <$> rows Samples.processed
  = [Str "P1"; Str "P2"; Str "P3"; Str "P4"; Str "P5"].
Proof. vm_compute. reflexivity. Qed.

(** * The statements on the sample data *)

Lemma unwrap_Ok {A} (default : A) (r : result A) :
  is_ok r = true → r = Ok (unwrap default r).
Proof. by destruct r. Qed.

Lemma unwrap_pair_Ok {A B} (default : A * B) (r : result (A * B)) :
  is_ok r = true → r = Ok ((unwrap default r).1, (unwrap default r).2).
Proof. destruct r as [[a b]|]; [done|discriminate]. Qed.

Lemma prepared_Ok (n : nat) :
  is_ok (Predictor.prepare 2026 (Samples.training n)) = true →
  Predictor.prepare 2026 (Samples.training n)
  = Ok ((Samples.prepared n).1, (Samples.prepared n).2).
Proof. unfold Samples.prepared. apply unwrap_pair_Ok. Qed.

Lemma processed_properties_invariant_witness :
  Assets.processed_properties (reporting := Samples.lenient)
    Samples.transactions Samples.listings
  = Ok Samples.processed ∧
  length (rows Samples.processed) = 5%nat ∧
  ∀ row, row ∈ rows Samples.processed →
    isna (at_label row "sale_price") = false ∧
    isna (at_label row "bedrooms") = false ∧
    isna (at_label row "bathrooms") = false.
Proof.
  assert (H : Assets.processed_properties (reporting := Samples.lenient)
                Samples.transactions Samples.listings
              = Ok Samples.processed)
    by (apply unwrap_Ok; vm_compute; reflexivity).
  split; [exact H|]. split; [vm_compute; reflexivity|].
  destruct (processed_properties_invariant _ _ _ H)
    as (combined & prices & _ & _ & _ & Hrows & _).
  intros row Hrow. destruct (Hrows row Hrow) as (Hprice & Hbeds & Hbaths & _).
  exact (conj Hprice (conj Hbeds Hbaths)).
Defined.



Lemma train_needs_fifty_rows_witness :
  (∃ w, Predictor.train 2026 (Samples.training 49) Samples.fresh
        = (Err (Predictor.insufficient_data 49), w) ∧
        Predictor.model (Predictor.self w) = None ∧
        Predictor.calls w = []) ∧
  (∃ metrics w, Predictor.train 2026 (Samples.training 50) Samples.fresh
                = (Ok metrics, w) ∧
                is_Some (Predictor.model (Predictor.self w))).
Proof.
  split.
  - destruct (train_needs_fifty_rows 2026 (Samples.training 49)
                (Predictor.init "random_forest") []
                (Samples.prepared 49).1 (Samples.prepared 49).2)
      as (_ & Hfail & _);
      [apply prepared_Ok; vm_compute; reflexivity|].
    destruct Hfail as (w & Hrun & Hmodel & _ & Hcalls); [vm_compute; lia|].
    assert (Hn : length (rows (Samples.prepared 49).1) = 49%nat)
      by (vm_compute; reflexivity).
    rewrite Hn in Hrun. exists w. exact (conj Hrun (conj Hmodel Hcalls)).
  - destruct (train_needs_fifty_rows 2026 (Samples.training 50)
                (Predictor.init "random_forest") []
                (Samples.prepared 50).1 (Samples.prepared 50).2)
      as (_ & _ & Hpass);
      [apply prepared_Ok; vm_compute; reflexivity|].
    destruct Hpass as (metrics & w & Hrun & Hmodel & _);
      [vm_compute; reflexivity | vm_compute; reflexivity |].
    exists metrics, w. exact (conj Hrun Hmodel).
Defined.

Lemma scaling_feeds_linear_only_witness :
  ∃ metrics w,
    Predictor.train 2026 (Samples.training 50) Samples.fresh = (Ok metrics, w) ∧
    length (Predictor.calls w) = 5%nat ∧
    Predictor.scaler (Predictor.self w) = Some ().
Proof.
  pose proof (scaling_feeds_linear_only 2026 (Samples.training 50)
                (Predictor.init "random_forest") []
                (Samples.prepared 50).1 (Samples.prepared 50).2
                (Predictor.RandomForestRegressor 100 10 42)) as H.
  destruct (Predictor.train_test_split _ _) as [[[X_train X_test] y_train] y_test].
  destruct H as (_ & _ & (metrics & w & Hrun & Hscaler & _ & Hcalls) & _);
    [ apply prepared_Ok; vm_compute; reflexivity
    | vm_compute; lia
    | vm_compute; reflexivity |].
  exists metrics, w. split; [exact Hrun|]. split.
  - rewrite Hcalls. reflexivity.
  - rewrite Hscaler. by destruct (Predictor.scaler_fit X_train).
Defined.

Lemma confidence_is_clamped_r2_witness :
  Samples.answer = (Ok Samples.answered, Samples.answer.2) ∧
  Predictor.confidence Samples.answered = Finite (Q2Qc (1 # 2)).
Proof.
  assert (Hrun : Samples.answer = (Ok Samples.answered, Samples.answer.2)).
  { unfold Samples.answered.
    rewrite <- (unwrap_Ok _ Samples.answer.1) by (vm_compute; reflexivity).
    by destruct Samples.answer. }
  split; [exact Hrun|].
  destruct (confidence_is_clamped_r2 2026 3 (of_Z 2) 1500 1990 None None None
              Samples.after_training Samples.answer.2 Samples.answered
              (Finite (Q2Qc (-3 # 10))))
    as (_ & _ & Hbelow & _); [vm_compute; reflexivity | exact Hrun |].
  apply Hbelow. vm_compute. reflexivity.
Defined.

Lemma prediction_requires_model_witness :
  Predictor.predict (Samples.training 1) Samples.fresh
  = (Err Predictor.not_trained, Samples.fresh) ∧
  Predictor.predict_single_property 2026 3 (of_Z 2) 1500 1990 None None None
    Samples.fresh
  = (Err Predictor.not_trained, Samples.fresh).
Proof.
  destruct (prediction_requires_model (Predictor.init "random_forest") [])
    as [Hbatch Hsingle]; [reflexivity|].
  split; [apply Hbatch|]. apply (Hsingle 2026%Z 3%Z (of_Z 2) 1500%Z 1990%Z None None None).
Defined.

Lemma zero_filter_is_absent_witness :
  Api.search_statement Samples.request_with_zero
  = Api.search_statement (omit MinPrice Samples.request_with_zero) ∧
  Api.params (Api.search_statement Samples.request_with_zero) !! "min_price" = None.
Proof.
  destruct (zero_filter_is_absent MinPrice Samples.request_with_zero)
    as (Heq & Hparam & _); [reflexivity|].
  split; [exact Heq | exact Hparam].
Defined.

Lemma deviation_needs_nonzero_prices_witness :
  Api.price_difference (Api.price_deviation Samples.sold_above) = Some 50000%Z ∧
  Api.price_difference (Api.price_deviation Samples.sold_at_zero) = None.
Proof.
  split.
  - destruct (deviation_needs_nonzero_prices Samples.sold_above)
      as (_ & _ & Hboth & _).
    destruct (Hboth 300000%Z 250000%Z) as [Hdiff _];
      [reflexivity | reflexivity | lia | lia |].
    exact Hdiff.
  - destruct (deviation_needs_nonzero_prices Samples.sold_at_zero)
      as (_ & _ & _ & Hnull).
    destruct Hnull as [Hdiff _]; [|exact Hdiff].
    right. right. left. reflexivity.
Defined.

Lemma failures_reraised_or_emptied_witness :
  Assets.market_trends (reporting := Samples.lenient) 0 Samples.processed_alone
  = Ok [] ∧
  Assets.processed_properties (reporting := Samples.lenient) empty_frame empty_frame
  = Err (KeyError "parcel_nb").
Proof.
  destruct (failures_reraised_or_emptied (reporting := Samples.lenient))
    as (Hmerger & Htrends & _).
  split.
  - apply (Htrends 0%Z Samples.processed_alone (KeyError "zip_code")).
    vm_compute. reflexivity.
  - apply Hmerger. vm_compute. reflexivity.
Defined.

(** C7, as the specification words it, fails on a row sold at zero and on
    a row whose fair price is zero: both prices are present, and both
    endpoints answer with a null deviation. *)
Lemma deviation_of_zero_price_is_null :
  is_Some (Api.sale_price Samples.sold_at_zero) ∧
  is_Some (Api.fair_price Samples.sold_at_zero) ∧
  is_Some (Api.sale_price Samples.valued_at_zero) ∧
  is_Some (Api.fair_price Samples.valued_at_zero) ∧
  Api.search_properties_rows [Samples.sold_at_zero; Samples.valued_at_zero]
  = [Api.Deviation None None; Api.Deviation None None] ∧
  Api.get_property_details_row (Some Samples.sold_at_zero)
  = Some (Api.Deviation None None) ∧
  Api.get_property_details_row (Some Samples.valued_at_zero)
  = Some (Api.Deviation None None).
Proof. repeat split; by eexists. Qed.

(** C6, as the specification words it, fails on the Market Trend
    Aggregator: on the merger's own output for an extract without listings
    the lookup of the postal-code column fails, and the asset returns an
    empty table instead of raising. *)
Lemma market_trends_swallows_failure :
  Assets.processed_properties (reporting := Samples.lenient)
    Samples.transactions empty_frame
  = Ok Samples.processed_alone ∧
  Assets.market_trends_body (reporting := Samples.lenient) 0 Samples.processed_alone
  = Err (KeyError "zip_code") ∧
  Assets.market_trends (reporting := Samples.lenient) 0 Samples.processed_alone
  = Ok [].
Proof.
  split; [apply unwrap_Ok; vm_compute; reflexivity|].
  split; vm_compute; reflexivity.
Qed.


(** * Further properties of the assets *)

Lemma trend_of_fields today df zip t :
  Assets.trend_of today df zip = Ok t →
  Assets.zip_code t = zip ∧ Assets.date t = today ∧
  Assets.data_source t = "combined" ∧
  Assets.inventory_count t = length (Assets.zip_rows df zip) ∧
  Assets.sales_count t = length (Assets.zip_rows df zip).
Proof.
  unfold Assets.trend_of. intros H.
  repeat (apply bind_Ok in H as (? & _ & H)). by injection H as <-.
Qed.

Lemma Forall2_fmap_key {K A} (R : K → A → Prop) (key : A → K) ks xs :
  (∀ k a, R k a → key a = k) → Forall2 R ks xs → key <$> xs = ks.
Proof.
  intros HR. induction 1 as [|k a ks xs Hka _ IH]; [done|].
  rewrite fmap_cons, IH. by rewrite (HR _ _ Hka).
Qed.

Section asset_extras.
Context {reporting : Assets.Reporting}.

(** X1. The Market Trend Aggregator never raises.  Whatever the input, the
    records it returns carry pairwise distinct postal codes, in the order in
    which the codes first appear in the input; no record has a missing
    postal code; every record counts at least five rows, the rows of its
    postal code, under both counts, and carries the day of the run and the
    tag [combined]. *)
Theorem market_trends_records (today : Z) (df : frame) :
  ∃ ts, Assets.market_trends today df = Ok ts ∧
    NoDup (Assets.zip_code <$> ts) ∧
    sublist (Assets.zip_code <$> ts)
            (unique ((fun r => at_label r "zip_code") <$> rows df)) ∧
    Forall (fun t =>
              isna (Assets.zip_code t) = false ∧
              (5 ≤ Assets.inventory_count t)%nat ∧
              Assets.inventory_count t
                = length (Assets.zip_rows df (Assets.zip_code t)) ∧
              Assets.sales_count t = Assets.inventory_count t ∧
              Assets.date t = today ∧
              Assets.data_source t = "combined") ts.
Proof.
  assert (Hnil : ∃ ts : list Assets.trend, Ok [] = Ok ts ∧
            NoDup (Assets.zip_code <$> ts) ∧
            sublist (Assets.zip_code <$> ts)
                    (unique ((fun r => at_label r "zip_code") <$> rows df)) ∧
            Forall (fun t =>
              isna (Assets.zip_code t) = false ∧
              (5 ≤ Assets.inventory_count t)%nat ∧
              Assets.inventory_count t
                = length (Assets.zip_rows df (Assets.zip_code t)) ∧
              Assets.sales_count t = Assets.inventory_count t ∧
              Assets.date t = today ∧
              Assets.data_source t = "combined") ts).
  { exists []. split; [done|]. split; [constructor|]. split; [apply sublist_nil_l|].
    constructor. }
  unfold Assets.market_trends, Assets.market_trends_body.
  destruct (frame_empty df); [exact Hnil|].
  unfold getitem. destruct (has_column df "zip_code"); [|exact Hnil].
  simpl. rewrite trends_loop_traverse.
  destruct (traverse _ _) as [ts|e] eqn:Hts; [|exact Hnil]. simpl.
  destruct (Assets.trends_report ts) as [reported|err]; [simpl|exact Hnil].
  apply traverse_Ok in Hts.
  assert (Hkeys : Assets.zip_code <$> ts
                  = filter (fun z => qualifies df z = true)
                      (unique ((fun r => at_label r "zip_code") <$> rows df))).
  { eapply Forall2_fmap_key; [|exact Hts]. intros k a Hka.
    by apply trend_of_fields in Hka as [? _]. }
  exists ts. split; [done|]. split; [|split].
  - rewrite Hkeys. apply NoDup_filter, unique_NoDup.
  - rewrite Hkeys. apply sublist_filter.
  - apply Forall_forall. intros t Ht.
    apply list_elem_of_lookup in Ht as [i Hi].
    destruct (Forall2_lookup_r _ _ _ _ _ Hts Hi) as (z & Hz & Ht).
    apply list_elem_of_lookup_2, list_elem_of_filter in Hz as [Hq _].
    apply trend_of_fields in Ht as (-> & ? & ? & Hinv & Hsales).
    unfold qualifies in Hq. apply andb_true_iff in Hq as [Hna Hlen].
    apply negb_true_iff in Hna. apply negb_true_iff, bool_decide_eq_false in Hlen.
    rewrite Hinv, Hsales. repeat split; try done. lia.
Qed.

(** ** Columns computed row by row *)

Lemma getitem_aligned df c cs :
  getitem df c = Ok cs → Forall2 (fun r v => v = at_label r c) (rows df) cs.
Proof.
  intros [_ ->]%getitem_Ok. apply Forall2_fmap_r, Forall_Forall2_diag, Forall_forall.
  done.
Qed.

Lemma traverse_aligned {A B C} (R : A → B → Prop) (h : B → result C) l vals vals' :
  Forall2 R l vals → traverse h vals = Ok vals' →
  Forall2 (fun r v' => ∃ v, R r v ∧ h v = Ok v') l vals'.
Proof.
  intros HR Ht%traverse_Ok. revert vals' Ht.
  induction HR as [|r v l vals Hrv _ IH]; intros vals' Ht.
  - inversion Ht. constructor.
  - inversion Ht as [|? v' ? vs' Hv Hrest]; subst. constructor; [eauto|by apply IH].
Qed.

Lemma column_op_aligned {A} (Ra Rb : A → cell → Prop) f l a b c :
  Forall2 Ra l a → Forall2 Rb l b → column_op f a b = Ok c →
  Forall2 (fun r v => ∃ x y, Ra r x ∧ Rb r y ∧ f x y = Ok v) l c.
Proof.
  unfold column_op. intros Ha Hb Hc%traverse_Ok. revert b c Hb Hc.
  induction Ha as [|r x l a Hx _ IH]; intros b c Hb Hc.
  - inversion Hb; subst. simpl in Hc. inversion Hc. constructor.
  - inversion Hb as [|? y ? b' Hy Hb']; subst. simpl in Hc.
    inversion Hc as [|? v ? c' Hv Hc']; subst.
    constructor; [by exists x, y|by apply (IH b')].
Qed.

Lemma setitem_aligned (R : row → cell → Prop) df c vals :
  Forall2 R (rows df) vals →
  Forall2 (fun r r' => ∃ v, R r v ∧ r' = <[c := v]> r)
          (rows df) (rows (setitem df c vals)).
Proof.
  simpl. generalize (rows df). intros l.
  induction 1 as [|r v l vals Hrv _ IH]; simpl; constructor; eauto.
Qed.

Lemma setitem_rows_elem (R : row → cell → Prop) df c vals r' :
  Forall2 R (rows df) vals → r' ∈ rows (setitem df c vals) →
  ∃ r v, r ∈ rows df ∧ R r v ∧ r' = <[c := v]> r.
Proof.
  intros HR%(setitem_aligned _ _ c) Hin.
  apply list_elem_of_lookup in Hin as [i Hi].
  destruct (Forall2_lookup_r _ _ _ _ _ HR Hi) as (r & Hr & v & Hv & ->).
  exists r, v. split; [by eapply list_elem_of_lookup_2|done].
Qed.

Lemma at_label_project cols (r : row) c :
  at_label (project cols r) c = if bool_decide (c ∈ cols) then at_label r c else Num NaN.
Proof.
  unfold project. case_bool_decide as Hc.
  - unfold at_label at 1.
    rewrite (elem_of_list_to_map_1' _ c (at_label r c)); [done| |].
    + intros y (c' & [= <- ->] & _)%list_elem_of_fmap. done.
    + apply list_elem_of_fmap. by exists c.
  - unfold at_label at 1. rewrite (proj1 (not_elem_of_list_to_map _ _)); [done|].
    rewrite <- list_fmap_compose. intros (c' & -> & Hin)%list_elem_of_fmap. done.
Qed.

Lemma at_label_project_in cols (r : row) c :
  bool_decide (c ∈ cols) = true → at_label (project cols r) c = at_label r c.
Proof. intros H. by rewrite at_label_project, H. Qed.

Lemma at_label_project_out cols (r : row) c :
  bool_decide (c ∈ cols) = false → at_label (project cols r) c = Num NaN.
Proof. intros H. by rewrite at_label_project, H. Qed.

(** A row of the loader's frame once the merger has derived its columns. *)
Lemma boulder_properties_row b bp row :
  Assets.boulder_properties b = Ok bp → row ∈ rows bp →
  ∃ r0 full three_qtr half,
    r0 ∈ rows b ∧
    at_label row "full_baths" = Num full ∧
    at_label row "three_qtr_baths" = Num three_qtr ∧
    at_label row "half_baths" = Num half ∧
    at_label row "bathrooms"
    = Num (fadd (fadd full (fmul three_qtr Assets.f0_75)) (fmul half Assets.f0_5)) ∧
    cell_add (at_label row "above_ground_sqft") (at_label row "finished_bsmt_sqft")
    = Ok (at_label row "square_footage") ∧
    at_label row "id" = at_label row "parcel_nb" ∧
    at_label row "data_source" = Str "boulder_county" ∧
    at_label row "zip_code" = Num NaN ∧
    (∀ c, c ∈ Assets.boulder_columns → at_label row c = at_label r0 c).
Proof.
  unfold Assets.boulder_properties. intros H Hrow.
  apply bind_Ok in H as (bp0 & Hsel & H).
  unfold select in Hsel. apply bind_Ok in Hsel as (? & _ & Hsel).
  injection Hsel as <-.
  apply bind_Ok in H as (full & Hfull%getitem_aligned & H).
  apply bind_Ok in H as (tq & Htq%getitem_aligned & H).
  apply bind_Ok in H as (tq' & Htq' & H).
  pose proof (traverse_aligned _ _ _ _ _ Htq Htq') as Htq2.
  apply bind_Ok in H as (acc & Hacc & H).
  pose proof (column_op_aligned _ _ _ _ _ _ _ Hfull Htq2 Hacc) as Hacc2.
  apply bind_Ok in H as (half & Hhalf%getitem_aligned & H).
  apply bind_Ok in H as (half' & Hhalf' & H).
  pose proof (traverse_aligned _ _ _ _ _ Hhalf Hhalf') as Hhalf2.
  apply bind_Ok in H as (baths & Hbaths & H).
  pose proof (column_op_aligned _ _ _ _ _ _ _ Hacc2 Hhalf2 Hbaths) as Hbaths2.
  cbv zeta in H.
  apply bind_Ok in H as (above & Habove%getitem_aligned & H).
  apply bind_Ok in H as (bsmt & Hbsmt%getitem_aligned & H).
  apply bind_Ok in H as (sqft & Hsqft & H).
  pose proof (column_op_aligned _ _ _ _ _ _ _ Habove Hbsmt Hsqft) as Hsqft2.
  apply bind_Ok in H as (parcel & Hparcel%getitem_aligned & H).
  injection H as <-.
  clear Hfull Htq Htq' Htq2 Hacc Hacc2 Hhalf Hhalf' Hhalf2 Hbaths Habove Hbsmt Hsqft.
  apply (setitem_rows_elem _ _ _ _ _ Hparcel) in Hrow as (r3 & vid & Hr3 & -> & ->).
  apply elem_of_setitem_const_rows in Hr3 as (r2 & Hr2 & ->).
  apply (setitem_rows_elem _ _ _ _ _ Hsqft2) in Hr2
    as (r1 & vs & Hr1 & (ca & cb & -> & -> & Hvs) & ->).
  apply (setitem_rows_elem _ _ _ _ _ Hbaths2) in Hr1
    as (r0 & vb & Hr0 & (s & h & (f & t & -> & (t0 & -> & Ht) & Hs) & (h0 & -> & Hh) & Hvb)
        & ->).
  clear Hparcel Hsqft2 Hbaths2.
  cbn [rows] in Hr0. apply list_elem_of_fmap in Hr0 as (rb & -> & Hrb).
  set (pr := project Assets.boulder_columns rb) in *.
  assert (Hpr : ∀ c, bool_decide (c ∈ Assets.boulder_columns) = true →
                     at_label pr c = at_label rb c)
    by (intros c Hc; by apply at_label_project_in).
  assert (Hzip : at_label pr "zip_code" = Num NaN)
    by (apply at_label_project_out; vm_compute; reflexivity).
  rewrite !at_label_insert_ne in Hvs by (intros [=]).
  rewrite Hpr in Hh by (vm_compute; reflexivity).
  rewrite Hpr in Hs by (vm_compute; reflexivity).
  rewrite Hpr in Ht by (vm_compute; reflexivity).
  destruct (at_label rb "three_qtr_baths") as [t1|] eqn:Et; [|discriminate Ht].
  destruct (at_label rb "half_baths") as [h1|] eqn:Eh; [|discriminate Hh].
  injection Ht as <-. injection Hh as <-.
  destruct (at_label rb "full_baths") as [f1|] eqn:Ef; [|discriminate Hs].
  injection Hs as <-. injection Hvb as <-.
  exists rb, f1, t1, h1. split; [exact Hrb|].
  repeat (first [ rewrite at_label_insert_eq
                | rewrite at_label_insert_ne by (intros [=]) ]).
  rewrite !Hpr by (vm_compute; reflexivity).
  rewrite Ef, Et, Eh, Hzip.
  rewrite !Hpr in Hvs by (vm_compute; reflexivity).
  do 4 (split; [reflexivity|]). split; [exact Hvs|]. do 3 (split; [reflexivity|]).
  intros c Hc.
  assert (Hout : ∀ k, bool_decide (k ∈ Assets.boulder_columns) = false → k ≠ c).
  { intros k Hk ->. by apply bool_decide_eq_false in Hk. }
  rewrite !at_label_insert_ne by (apply Hout; vm_compute; reflexivity).
  apply Hpr. by apply bool_decide_eq_true.
Qed.

(** Without a [sale_price] column in the external frame, what the merger
    returns are rows of the loader's frame with their derived columns. *)
Lemma processed_rows_from_boulder (b r out : frame) :
  "sale_price" ∉ columns r →
  Assets.processed_properties b r = Ok out →
  ∃ bp, Assets.boulder_properties b = Ok bp ∧
        ∀ row, row ∈ rows out → row ∈ rows bp.
Proof.
  intros Hcol Hout.
  apply processed_properties_rows in Hout as (combined & prices & Hc & _ & Hrows).
  unfold Assets.combined_df in Hc.
  apply bind_Ok in Hc as (bp & Hbp & Hc).
  exists bp. split; [done|].
  intros row Hrow. rewrite Hrows in Hrow.
  apply list_elem_of_filter in Hrow as [_ [Hcomplete Hin]%list_elem_of_filter].
  destruct (negb (frame_empty r)).
  - apply concat_Ok in Hc. rewrite Hc in Hin.
    apply elem_of_app in Hin as [Hin|Hin]; [done|].
    apply (rentcast_df_no_sale_price _ _ Hcol) in Hin.
    apply complete_required in Hcomplete as [Hs _]. by rewrite Hin in Hs.
  - by injection Hc as <-.
Qed.

(** X2. In every row the Property Merger returns, the three bath counts
    are numbers and the bathroom count is
    [full + 0.75 * three_qtr + 0.5 * half]; the floor area is the
    above-ground area plus the finished basement; the identifier is the
    parcel number; and the row keeps the values of the loader's columns of
    some row of the extract.  (External frame without a [sale_price]
    column.) *)
Theorem merged_rows_derivation (b r out : frame) :
  "sale_price" ∉ columns r →
  Assets.processed_properties b r = Ok out →
  ∀ row, row ∈ rows out →
    ∃ r0 full three_qtr half,
      r0 ∈ rows b ∧
      (∀ c, c ∈ Assets.boulder_columns → at_label row c = at_label r0 c) ∧
      at_label row "full_baths" = Num full ∧
      at_label row "three_qtr_baths" = Num three_qtr ∧
      at_label row "half_baths" = Num half ∧
      at_label row "bathrooms"
      = Num (fadd (fadd full (fmul three_qtr (Finite (Q2Qc (3 # 4)))))
                  (fmul half (Finite (Q2Qc (1 # 2))))) ∧
      cell_add (at_label row "above_ground_sqft") (at_label row "finished_bsmt_sqft")
      = Ok (at_label row "square_footage") ∧
      at_label row "id" = at_label row "parcel_nb".
Proof.
  intros Hcol Hout row Hrow.
  destruct (processed_rows_from_boulder b r out Hcol Hout) as (bp & Hbp & Hsub).
  destruct (boulder_properties_row b bp row Hbp (Hsub row Hrow))
    as (r0 & full & tq & half & Hr0 & Hf & Ht & Hh & Hb & Hs & Hid & _ & _ & Hkeep).
  exists r0, full, tq, half. repeat split; done.
Qed.

(** A table made from no record has no postal-code column to report on. *)
Lemma trends_report_nil : is_ok (Assets.trends_report []) = false.
Proof.
  unfold Assets.trends_report.
  by destruct (Assets.MetadataValue_int (Assets.PyInt _)).
Qed.

(** X3. Fed with what the Property Merger returns, the Market Trend
    Aggregator returns no record at all: the loader's columns have no postal
    code, and no external row survives the merger.  (External frame without
    a [sale_price] column.) *)
Theorem pipeline_trends_are_empty (today : Z) (b r out : frame) :
  "sale_price" ∉ columns r →
  Assets.processed_properties b r = Ok out →
  Assets.market_trends today out = Ok [].
Proof.
  intros Hcol Hout.
  destruct (processed_rows_from_boulder b r out Hcol Hout) as (bp & Hbp & Hsub).
  assert (Hzip : ∀ row, row ∈ rows out → at_label row "zip_code" = Num NaN).
  { intros row Hrow.
    by destruct (boulder_properties_row b bp row Hbp (Hsub row Hrow))
      as (? & ? & ? & ? & _ & _ & _ & _ & _ & _ & _ & _ & ? & _). }
  assert (Hq : ∀ z, qualifies out z = false).
  { intros z. unfold qualifies. destruct (isna z) eqn:Hz; [done|]. simpl.
    apply negb_false_iff, bool_decide_eq_true.
    destruct (Assets.zip_rows out z) as [|row g] eqn:Eg; [simpl; lia|].
    assert (Hin : row ∈ Assets.zip_rows out z)
      by (rewrite Eg; apply elem_of_cons; by left).
    unfold Assets.zip_rows in Hin. apply list_elem_of_filter in Hin as [Heq Hin].
    rewrite (Hzip row Hin) in Heq. done. }
  unfold Assets.market_trends, Assets.market_trends_body.
  destruct (frame_empty out); [done|].
  destruct (getitem out "zip_code") as [zips|]; [|done]. simpl.
  rewrite trends_loop_traverse.
  assert (Hnone : filter (fun z => qualifies out z = true) (unique zips) = []).
  { induction (unique zips) as [|z l IH]; [done|].
    rewrite filter_cons_False; [done|]. by rewrite Hq. }
  rewrite Hnone. simpl.
  pose proof trends_report_nil as Hreport.
  by destruct (Assets.trends_report []).
Qed.

(** ** The listings fetcher *)

Lemma fetch_all_Ok get zips :
  Forall (fun z => is_ok (get z) = true) zips →
  Assets.fetch_all get zips = Ok (zips ≫= fun z => accepted (get z)).
Proof.
  induction 1 as [|z zips Hz _ IH]; [done|].
  simpl. destruct (get z) as [resp|] eqn:Hget; [|discriminate]. simpl.
  rewrite IH. simpl. by destruct (bool_decide _).
Qed.

Lemma fetch_all_Err get zips :
  Exists (fun z => is_ok (get z) = false) zips →
  ∃ e, Assets.fetch_all get zips = Err e.
Proof.
  induction 1 as [z zips Hz|z zips _ [e IH]]; simpl.
  - destruct (get z); [discriminate|]. by eexists.
  - destruct (get z); simpl; [|by eexists]. rewrite IH. by eexists.
Qed.

(** X4. With a credential, the External Listings Fetcher queries the five
    postal codes 80301 to 80305 and nothing else.  When the five calls
    return, the listings fetched are those of the responses with status 200,
    in the order of the codes, the other responses being skipped; the
    fetcher returns them when there is none or when its report on them
    returns, and an empty table when the report raises.  When one of the
    five calls raises, it returns an empty table: the listings fetched
    before the failure are dropped with it. *)
Theorem fetcher_listings (c : Ascii.ascii) (key : string)
  (get : string → result Assets.response) :
  let fetched := queried_codes ≫= fun z => accepted (get z) in
  (Forall (fun z => is_ok (get z) = true) queried_codes →
     (fetched = [] ∨
      Assets.rentcast_report (Assets.frame_of_records fetched) = Ok tt →
      ∃ df, Assets.rentcast_properties (Some (String c key)) get = Ok df ∧
            rows df = fetched) ∧
     (fetched ≠ [] →
      is_ok (Assets.rentcast_report (Assets.frame_of_records fetched)) = false →
      Assets.rentcast_properties (Some (String c key)) get = Ok empty_frame)) ∧
  (Exists (fun z => is_ok (get z) = false) queried_codes →
     Assets.rentcast_properties (Some (String c key)) get = Ok empty_frame).
Proof.
  intros fetched.
  assert (Hfetched : fetched = queried_codes ≫= fun z => accepted (get z))
    by reflexivity.
  clearbody fetched.
  unfold Assets.rentcast_properties, Assets.rentcast_properties_body.
  change (take 5 Assets.boulder_zip_codes) with queried_codes. split.
  - intros Hall. rewrite (fetch_all_Ok get queried_codes Hall), <- Hfetched.
    simpl. destruct fetched as [|r l].
    + split; [by eexists|done].
    + split.
      * intros [?| ->]; [done|]. by eexists.
      * intros _ Hfail. by destruct (Assets.rentcast_report _).
  - intros Hex. by destruct (fetch_all_Err get queried_codes Hex) as [e ->].
Qed.

End asset_extras.

(** ** Columns, position by position *)

Lemma getitem_lookup df c cs i v :
  getitem df c = Ok cs → cs !! i = Some v →
  ∃ r, rows df !! i = Some r ∧ v = at_label r c.
Proof.
  intros [_ ->]%getitem_Ok. rewrite list_lookup_fmap.
  destruct (rows df !! i) as [r|]; [|done]. intros [= <-]. eauto.
Qed.

Lemma traverse_lookup {A B} (h : A → result B) l l' i v :
  traverse h l = Ok l' → l' !! i = Some v → ∃ x, l !! i = Some x ∧ h x = Ok v.
Proof.
  intros H%traverse_Ok Hv. destruct (Forall2_lookup_r _ _ _ _ _ H Hv) as (x & ? & ?).
  eauto.
Qed.

Lemma column_op_lookup f a b c i v :
  column_op f a b = Ok c → c !! i = Some v →
  ∃ x y, a !! i = Some x ∧ b !! i = Some y ∧ f x y = Ok v.
Proof.
  unfold column_op. intros H Hv.
  destruct (traverse_lookup _ _ _ _ _ H Hv) as ([x y] & Hxy & Hf).
  apply lookup_zip_with_Some in Hxy as (x' & y' & [= <- <-] & ? & ?). eauto.
Qed.

Lemma setitem_lookup df c vals i r' :
  rows (setitem df c vals) !! i = Some r' →
  ∃ r v, rows df !! i = Some r ∧ vals !! i = Some v ∧ r' = <[c := v]> r.
Proof.
  simpl. intros (r & v & -> & ? & ?)%lookup_zip_with_Some. eauto.
Qed.

(** ** The training table *)

Section training_extras.
Context {reporting : Assets.Reporting}.

(** X12. The training-data asset never raises.  What it returns is either
    an empty table or a table with the seven features, the four engineered
    columns and the target, in this order, in which no row lacks its sale
    price. *)
Theorem training_table_shape (now : Z) (df : frame) :
  ∃ out, Assets.ml_training_data now df = Ok out ∧
    (out = empty_frame ∨
     columns out = training_columns ∧
     ∀ r, r ∈ rows out → isna (at_label r "sale_price") = false).
Proof.
  assert (Hempty : ∃ out, Ok empty_frame = Ok out ∧
            (out = empty_frame ∨
             columns out = training_columns ∧
             ∀ r, r ∈ rows out → isna (at_label r "sale_price") = false))
    by (exists empty_frame; split; [reflexivity|by left]).
  unfold Assets.ml_training_data, Assets.ml_training_data_body.
  destruct (frame_empty df); [exact Hempty|].
  destruct (Assets.feature_matrix df) as [[X y]|e] eqn:Hfm; [|exact Hempty].
  simpl. destruct (Assets.engineered now X y) as [Xe|e] eqn:He; [|exact Hempty].
  simpl. destruct (Assets.training_report _ _ _) as [reported|e]; [|exact Hempty].
  simpl. eexists. split; [reflexivity|]. right.
  unfold Assets.feature_matrix in Hfm.
  apply bind_Ok in Hfm as (X0 & Hsel & Hfm).
  unfold select in Hsel. apply bind_Ok in Hsel as (? & _ & Hsel).
  injection Hsel as <-.
  apply bind_Ok in Hfm as (y0 & _ & Hfm).
  apply bind_Ok in Hfm as (X1 & Hfill & Hfm).
  unfold fillna_median in Hfill. apply bind_Ok in Hfill as (meds & _ & Hfill).
  injection Hfill as <-. injection Hfm as <- <-.
  unfold Assets.engineered in He.
  repeat (apply bind_Ok in He as (? & _ & He)). injection He as <-.
  split; [vm_compute; reflexivity|].
  intros r [i Hi]%list_elem_of_lookup.
  apply setitem_lookup in Hi as (r0 & v & _ & Hv & ->).
  rewrite at_label_insert_eq.
  rewrite select_mask_notna in Hv.
  by apply list_elem_of_lookup_2, list_elem_of_filter in Hv as [Hv _].
Qed.

End training_extras.

(** * Further properties of the predictor *)

Section predictor_extras.
Context {lib : Predictor.Sklearn}.
Import Predictor.

Lemma predict_effects property_data w r w' :
  predict property_data w = (r, w') →
  self w' = self w ∧
  ∃ extra, calls w' = calls w ++ extra ∧ Forall read_only extra.
Proof.
  unfold predict, scaler_transform, model_predict, mbind, M_bind, bind, lift,
    get_self, record_call, mret, M_ret, ret, raise.
  assert (Hsame : ∀ (r0 : result (list float)), (r0, w) = (r, w') →
            self w' = self w ∧
            ∃ extra, calls w' = calls w ++ extra ∧ Forall read_only extra).
  { intros r0 [= _ <-]. split; [done|]. exists []. by rewrite app_nil_r. }
  simpl. destruct (model (self w)) eqn:Hm; [|apply Hsame].
  destruct (feature_names (self w)); [|apply Hsame].
  simpl. destruct (select _ _); simpl; [|apply Hsame].
  destruct (fillna_median _); simpl; [|apply Hsame].
  destruct (scaler (self w)); simpl; [|apply Hsame].
  destruct (bool_decide _); simpl; rewrite Hm; intros [= _ <-]; simpl;
    (split; [done|]); eexists; rewrite <- app_assoc; (split; [done|]);
    repeat constructor.
Qed.

(** X5. Prediction never changes the instance and never fits anything:
    after [predict] or [predict_single_property], whether it returned or
    raised, every attribute of the instance is what it was, and the only
    library calls made are scaler transforms and estimator predictions. *)
Theorem prediction_is_read_only (w : world) :
  (∀ property_data r w',
     predict property_data w = (r, w') →
     self w' = self w ∧
     ∃ extra, calls w' = calls w ++ extra ∧ Forall read_only extra) ∧
  (∀ now bedrooms bathrooms square_footage year_built
     land_value bldg_value garage_sqft r w',
     predict_single_property now bedrooms bathrooms square_footage year_built
       land_value bldg_value garage_sqft w = (r, w') →
     self w' = self w ∧
     ∃ extra, calls w' = calls w ++ extra ∧ Forall read_only extra).
Proof.
  split; [intros; by eapply predict_effects|].
  intros now bedrooms bathrooms square_footage year_built
    land_value bldg_value garage_sqft r w'.
  unfold predict_single_property, mbind, M_bind, bind, lift.
  destruct (property_frame _ _ _ _ _ _ _ _) as [pd|].
  - destruct (predict pd w) as [[ps|e] w1] eqn:Hp;
      apply predict_effects in Hp as [Hself Hcalls].
    + destruct ps as [|price ps]; [by intros [= _ <-]|]. simpl.
      destruct (py_int price); simpl; by intros [= _ <-].
    + by intros [= _ <-].
  - intros [= _ <-]. split; [done|]. exists []. by rewrite app_nil_r.
Qed.



(** Reading a label through the insertions made on a row. *)
Ltac distinct_labels := apply (bool_decide_unpack _); vm_compute; exact I.

Ltac at_label_norm :=
  repeat first [ rewrite at_label_insert_eq
               | rewrite at_label_insert_ne by distinct_labels ].

Ltac at_label_norm_in H :=
  repeat first [ rewrite at_label_insert_eq in H
               | rewrite at_label_insert_ne in H by distinct_labels ].

(** A row of the prepared features, with the target at the same position. *)
Lemma prepare_row now data X y i r c :
  prepare now data = Ok (X, y) →
  rows X !! i = Some r → y !! i = Some c →
  cell_div c (at_label r "square_footage") = Ok (at_label r "price_per_sqft") ∧
  at_label r "total_bathrooms" = at_label r "bathrooms" ∧
  cell_sub (Num (of_Z now)) (at_label r "year_built") = Ok (at_label r "age") ∧
  (∃ d, cell_add (at_label r "bldg_value") (Num (of_Z 1)) = Ok d ∧
        cell_div (at_label r "land_value") d
        = Ok (at_label r "land_to_building_ratio")) ∧
  cell_add (at_label r "square_footage") (at_label r "garage_sqft")
  = Ok (at_label r "total_sqft").
Proof.
  unfold prepare. intros H Hr Hc.
  apply bind_Ok in H as (X0 & _ & H).
  apply bind_Ok in H as (y0 & _ & H).
  apply bind_Ok in H as (X1 & _ & H).
  cbv zeta in H.
  apply bind_Ok in H as (area & Harea & H).
  apply bind_Ok in H as (pps & Hpps & H).
  apply bind_Ok in H as (baths & Hbaths & H).
  apply bind_Ok in H as (built & Hbuilt & H).
  apply bind_Ok in H as (age & Hage & H).
  apply bind_Ok in H as (land & Hland & H).
  apply bind_Ok in H as (bldg & Hbldg & H).
  apply bind_Ok in H as (bldg1 & Hbldg1 & H).
  apply bind_Ok in H as (ratio & Hratio & H).
  apply bind_Ok in H as (area' & Harea' & H).
  apply bind_Ok in H as (garage & Hgarage & H).
  apply bind_Ok in H as (total & Htotal & H).
  injection H as <- <-.
  apply setitem_lookup in Hr as (r5 & vt & Hr5 & Hvt & ->).
  destruct (column_op_lookup _ _ _ _ _ _ Htotal Hvt) as (xa & xg & Hxa & Hxg & Htot).
  destruct (getitem_lookup _ _ _ _ _ Harea' Hxa) as (r5a & Hr5a & ->).
  destruct (getitem_lookup _ _ _ _ _ Hgarage Hxg) as (r5b & Hr5b & ->).
  rewrite Hr5 in Hr5a, Hr5b. injection Hr5a as <-. injection Hr5b as <-.
  apply setitem_lookup in Hr5 as (r4 & vr & Hr4 & Hvr & ->).
  destruct (column_op_lookup _ _ _ _ _ _ Hratio Hvr) as (xl & xd & Hxl & Hxd & Hrat).
  destruct (getitem_lookup _ _ _ _ _ Hland Hxl) as (r4a & Hr4a & ->).
  destruct (traverse_lookup _ _ _ _ _ Hbldg1 Hxd) as (xb & Hxb & Hd).
  destruct (getitem_lookup _ _ _ _ _ Hbldg Hxb) as (r4b & Hr4b & ->).
  rewrite Hr4 in Hr4a, Hr4b. injection Hr4a as <-. injection Hr4b as <-.
  apply setitem_lookup in Hr4 as (r3 & va & Hr3 & Hva & ->).
  destruct (traverse_lookup _ _ _ _ _ Hage Hva) as (xy & Hxy & Hsub).
  destruct (getitem_lookup _ _ _ _ _ Hbuilt Hxy) as (r3a & Hr3a & ->).
  rewrite Hr3 in Hr3a. injection Hr3a as <-.
  apply setitem_lookup in Hr3 as (r2 & vb & Hr2 & Hvb & ->).
  destruct (getitem_lookup _ _ _ _ _ Hbaths Hvb) as (r2a & Hr2a & ->).
  rewrite Hr2 in Hr2a. injection Hr2a as <-.
  apply setitem_lookup in Hr2 as (r1 & vp & Hr1 & Hvp & ->).
  destruct (column_op_lookup _ _ _ _ _ _ Hpps Hvp) as (xc & xs & Hxc & Hxs & Hdiv).
  destruct (getitem_lookup _ _ _ _ _ Harea Hxs) as (r1a & Hr1a & ->).
  rewrite Hr1 in Hr1a. injection Hr1a as <-.
  rewrite Hc in Hxc. injection Hxc as <-.
  at_label_norm. at_label_norm_in Htot. at_label_norm_in Hrat.
  at_label_norm_in Hd. at_label_norm_in Hsub.
  split; [exact Hdiv|]. split; [reflexivity|]. split; [exact Hsub|].
  split; [by exists xd|exact Htot].
Qed.

(** X7. The training features give the target away: in every prepared row
    with a finite sale price and a finite, non-zero floor area, the feature
    [price_per_sqft] times the floor area is the sale price the model is
    trained to predict.  At prediction time the same feature is the
    constant 0. *)
Theorem price_feature_reveals_target (now : Z) (data X : frame) (y : list cell)
  (i : nat) (r : row) (price area : Qc) :
  prepare now data = Ok (X, y) →
  rows X !! i = Some r →
  y !! i = Some (Num (Finite price)) →
  at_label r "square_footage" = Num (Finite area) →
  area ≠ 0%Qc →
  (∃ pps, at_label r "price_per_sqft" = Num (Finite pps) ∧
          (pps * area = price)%Qc) ∧
  (∀ now' bedrooms bathrooms square_footage year_built
     land_value bldg_value garage_sqft pd r',
     property_frame now' bedrooms bathrooms square_footage year_built
       land_value bldg_value garage_sqft = Ok pd →
     r' ∈ rows pd → at_label r' "price_per_sqft" = Num (Finite 0%Qc)).
Proof.
  intros Hprep Hr Hy Harea Hne. split.
  - destruct (prepare_row now data X y i r _ Hprep Hr Hy) as (Hdiv & _).
    rewrite Harea in Hdiv. simpl in Hdiv.
    rewrite bool_decide_eq_false_2 in Hdiv by done.
    injection Hdiv as Hpps. exists (price / area)%Qc. split; [done|].
    by field.
  - intros now' bedrooms bathrooms square_footage year_built
      land_value bldg_value garage_sqft pd r'.
    unfold property_frame. cbv zeta. intros Hpd Hr'.
    apply bind_Ok in Hpd as (ratio & _ & Hpd). injection Hpd as <-.
    simpl in Hr'. apply list_elem_of_singleton in Hr' as ->.
    rewrite !at_label_insert_ne by done. rewrite at_label_insert_eq.
    unfold of_Z. by rewrite Z2Qc_inj_0.
Qed.


(** ** What is saved and what is expected at prediction *)

Lemma select_Ok df cols :
  Forall (fun c => c ∈ columns df) cols →
  select df cols = Ok (Frame cols (project cols <$> rows df)).
Proof.
  intros Hall. unfold select.
  assert (H : ∃ us, traverse (check_label df) cols = Ok us).
  { induction Hall as [|c cols Hc _ [us IH]]; [by eexists|].
    simpl. unfold check_label at 1, has_column.
    rewrite bool_decide_eq_true_2 by done. rewrite IH. by eexists. }
  destruct H as [us ->]. done.
Qed.

Lemma prepare_columns now data X y :
  prepare now data = Ok (X, y) → columns X = trained_features.
Proof.
  unfold prepare. intros H.
  apply bind_Ok in H as (X0 & Hsel & H).
  unfold select in Hsel. apply bind_Ok in Hsel as (? & _ & Hsel).
  injection Hsel as <-.
  apply bind_Ok in H as (y0 & _ & H).
  apply bind_Ok in H as (X1 & Hfill & H).
  unfold fillna_median in Hfill. apply bind_Ok in Hfill as (meds & _ & Hfill).
  injection Hfill as <-. cbv zeta in H.
  repeat (apply bind_Ok in H as (? & _ & H)).
  injection H as <- _. vm_compute. reflexivity.
Qed.

Lemma property_frame_columns now bedrooms bathrooms square_footage year_built
  land_value bldg_value garage_sqft pd :
  property_frame now bedrooms bathrooms square_footage year_built
    land_value bldg_value garage_sqft = Ok pd →
  columns pd = trained_features ∧ length (rows pd) = 1%nat.
Proof.
  unfold property_frame. cbv zeta. intros H.
  apply bind_Ok in H as (ratio & _ & H). injection H as <-.
  split; [vm_compute; reflexivity|reflexivity].
Qed.


(** X10. Training and prediction agree on the features.  The table
    [prepare_features] builds has the seven base features followed by
    [price_per_sqft], [total_bathrooms], [age], [land_to_building_ratio] and
    [total_sqft], in this order, whatever the data; the one-row table
    [predict_single_property] builds has the same labels in the same order,
    so the selection of the stored feature names from it, the first step of
    [predict], finds every label. *)
Theorem features_agree (now : Z) (data X : frame) (y : list cell) :
  prepare now data = Ok (X, y) →
  columns X = trained_features ∧
  ∀ now' bedrooms bathrooms square_footage year_built
    land_value bldg_value garage_sqft pd,
    property_frame now' bedrooms bathrooms square_footage year_built
      land_value bldg_value garage_sqft = Ok pd →
    columns pd = columns X ∧
    ∃ selected, select pd (columns X) = Ok selected ∧
                columns selected = columns X ∧
                length (rows selected) = 1%nat.
Proof.
  intros HX%prepare_columns. split; [exact HX|].
  intros now' bedrooms bathrooms square_footage year_built
    land_value bldg_value garage_sqft pd [Hpd Hone]%property_frame_columns.
  rewrite HX. split; [exact Hpd|].
  eexists. split; [apply select_Ok; rewrite Hpd; by apply Forall_forall|].
  split; [reflexivity|]. simpl. by rewrite length_fmap.
Qed.

End predictor_extras.

(** * Further properties of the query API *)

Lemma imap_index_only {A B} (g : nat → B) (l l' : list A) :
  length l = length l' → imap (fun i _ => g i) l = imap (fun i _ => g i) l'.
Proof.
  revert g l'. induction l as [|x l IH]; intros g [|x' l'] Hlen; try done.
  simpl. f_equal. apply (IH (g ∘ S)). simpl in Hlen. lia.
Qed.

Lemma int_filter_query v v' clause name st st' :
  Api.truthy_int v = Api.truthy_int v' → Api.query st = Api.query st' →
  Api.query (Api.int_filter v clause name st)
  = Api.query (Api.int_filter v' clause name st').
Proof.
  unfold Api.int_filter. intros <- Hq.
  destruct (Api.truthy_int v); simpl; by rewrite Hq.
Qed.

Lemma float_filter_query v v' clause name st st' :
  Api.truthy_float v = Api.truthy_float v' → Api.query st = Api.query st' →
  Api.query (Api.float_filter v clause name st)
  = Api.query (Api.float_filter v' clause name st').
Proof.
  unfold Api.float_filter. intros <- Hq.
  destruct (Api.truthy_float v); simpl; by rewrite Hq.
Qed.

Lemma in_filter_query vs vs' column prefix st st' :
  length (default [] vs) = length (default [] vs') →
  Api.query st = Api.query st' →
  Api.query (Api.in_filter vs column prefix st)
  = Api.query (Api.in_filter vs' column prefix st').
Proof.
  unfold Api.in_filter. intros Hlen Hq.
  destruct vs as [[|v vs]|], vs' as [[|v' vs']|]; try done.
  cbv zeta. cbn [Api.query].
  rewrite Hq.
  by rewrite (imap_index_only (fun i => prefix +:+ pretty i) (v :: vs) (v' :: vs')).
Qed.

(** X11. The text of the statement the search endpoint executes depends on
    the shape of the request only: which range filters are present, how
    many cities and postal codes are listed, and the limit.  The values of
    the filters, the city names and the postal codes in particular, reach
    the database as bound parameters and never as text. *)
Theorem query_text_ignores_values (a b : Api.PropertySearchRequest) :
  same_shape a b →
  Api.query (Api.search_statement a) = Api.query (Api.search_statement b).
Proof.
  intros (H1 & H2 & H3 & H4 & H5 & H6 & H7 & H8 & H9 & H10 & H11).
  unfold Api.search_statement. cbv zeta. cbn [Api.query]. rewrite H11.
  f_equal.
  apply in_filter_query; [exact H10|]. apply in_filter_query; [exact H9|].
  apply int_filter_query; [exact H8|]. apply int_filter_query; [exact H7|].
  apply float_filter_query; [exact H6|]. apply float_filter_query; [exact H5|].
  apply int_filter_query; [exact H4|]. apply int_filter_query; [exact H3|].
  apply int_filter_query; [exact H2|]. apply int_filter_query; [exact H1|].
  reflexivity.
Qed.

(** * The further properties on small inputs *)

Lemma merged_rows_derivation_witness :
  Forall (fun row =>
            at_label row "id" = at_label row "parcel_nb" ∧
            cell_add (at_label row "above_ground_sqft")
                     (at_label row "finished_bsmt_sqft")
            = Ok (at_label row "square_footage"))
         (rows Samples.processed) ∧
  length (rows Samples.processed) = 5%nat.
Proof.
  split; [|vm_compute; reflexivity].
  apply Forall_forall. intros row Hrow.
  destruct (merged_rows_derivation (reporting := Samples.lenient)
              Samples.transactions Samples.listings Samples.processed)
    with (row := row)
    as (r0 & full & three_qtr & half & _ & _ & _ & _ & _ & _ & Harea & Hid).
  - apply (bool_decide_unpack _). vm_compute. exact I.
  - apply unwrap_Ok. vm_compute. reflexivity.
  - exact Hrow.
  - exact (conj Hid Harea).
Defined.

Lemma pipeline_trends_are_empty_witness :
  Assets.market_trends (reporting := Samples.lenient) 0 Samples.processed = Ok [] ∧
  length (rows Samples.processed) = 5%nat.
Proof.
  split; [|vm_compute; reflexivity].
  apply (pipeline_trends_are_empty (reporting := Samples.lenient) 0%Z
           Samples.transactions Samples.listings).
  - apply (bool_decide_unpack _). vm_compute. exact I.
  - apply unwrap_Ok. vm_compute. reflexivity.
Defined.

Lemma fetcher_listings_witness :
  (∃ df, Assets.rentcast_properties (reporting := Samples.lenient)
           (Some "key") Samples.answering = Ok df ∧
         length (rows df) = 1%nat) ∧
  Assets.rentcast_properties (reporting := Samples.strict)
    (Some "key") Samples.answering = Ok empty_frame ∧
  Assets.rentcast_properties (reporting := Samples.lenient)
    (Some "key") Samples.interrupted = Ok empty_frame.
Proof.
  split; [|split].
  - destruct (fetcher_listings (reporting := Samples.lenient)
                (Ascii.ascii_of_nat 107) "ey" Samples.answering) as [[Hreturned _] _].
    { apply (bool_decide_unpack _). vm_compute. exact I. }
    destruct Hreturned as (df & Hdf & Hrows); [right; vm_compute; reflexivity|].
    exists df. split; [exact Hdf|]. rewrite Hrows. vm_compute. reflexivity.
  - destruct (fetcher_listings (reporting := Samples.strict)
                (Ascii.ascii_of_nat 107) "ey" Samples.answering) as [[_ Hlost] _].
    { apply (bool_decide_unpack _). vm_compute. exact I. }
    apply Hlost; [|vm_compute; reflexivity].
    intros Hnil. apply (f_equal length) in Hnil. vm_compute in Hnil. discriminate Hnil.
  - destruct (fetcher_listings (reporting := Samples.lenient)
                (Ascii.ascii_of_nat 107) "ey" Samples.interrupted) as [_ Hfailed].
    apply Hfailed. apply (bool_decide_unpack _). vm_compute. exact I.
Defined.

Lemma prediction_is_read_only_witness :
  Predictor.self Samples.answer.2 = Predictor.self Samples.after_training ∧
  is_Some (Predictor.model (Predictor.self Samples.after_training)).
Proof.
  split; [|vm_compute; by eexists].
  destruct (prediction_is_read_only Samples.after_training) as [_ Hsingle].
  destruct (Hsingle 2026%Z 3%Z (of_Z 2) 1500%Z 1990%Z None None None
              Samples.answer.1 Samples.answer.2) as [Hself _].
  - exact (surjective_pairing Samples.answer).
  - exact Hself.
Defined.


Lemma lookup_default {A} (d : A) (o : option A) :
  bool_decide (is_Some o) = true → o = Some (default d o).
Proof. intros [a ->]%bool_decide_eq_true. reflexivity. Qed.

Lemma price_feature_reveals_target_witness :
  ∃ pps, at_label Samples.prepared_row "price_per_sqft" = Num (Finite pps) ∧
         (pps * Qc_of_Z 1500 = Qc_of_Z 300000)%Qc.
Proof.
  destruct (price_feature_reveals_target 2026 (Samples.training 1)
              (Samples.prepared 1).1 (Samples.prepared 1).2 0 Samples.prepared_row
              (Qc_of_Z 300000) (Qc_of_Z 1500)) as [Hproduct _].
  - apply prepared_Ok. vm_compute. reflexivity.
  - apply lookup_default. vm_compute. reflexivity.
  - vm_compute. reflexivity.
  - vm_compute. reflexivity.
  - rewrite <- Z2Qc_inj_0. intros H%Z2Qc_inj. discriminate H.
  - exact Hproduct.
Defined.


Lemma features_agree_witness :
  columns (Samples.prepared 1).1 = trained_features ∧
  length trained_features = 12%nat.
Proof.
  split; [|reflexivity].
  destruct (features_agree 2026 (Samples.training 1)
              (Samples.prepared 1).1 (Samples.prepared 1).2) as [Hcolumns _].
  - apply prepared_Ok. vm_compute. reflexivity.
  - exact Hcolumns.
Defined.

Lemma query_text_ignores_values_witness :
  Api.query (Api.search_statement Samples.search_boulder)
  = Api.query (Api.search_statement Samples.search_elsewhere) ∧
  Api.cities Samples.search_boulder ≠ Api.cities Samples.search_elsewhere.
Proof.
  split; [|intros H; discriminate H].
  apply query_text_ignores_values. repeat split.
Defined.
